(** * spacepy.datamodel: attribute-carrying arrays and dictionaries

    A shallow embedding of [spacepy/datamodel.py]: the class [dmarray]
    (a [numpy.ndarray] subclass that carries [attrs] and restricts which
    instance attributes can be set) and the class [SpaceData] (a [dict]
    subclass that carries [attrs]).

    Python objects are mutable and shared, so dictionaries live in a store
    and are passed around as references; methods run in a state-and-error
    monad over the store and the object they are called on. *)

From Stdlib Require Import DecimalString DecimalNat.
From stdpp Require Import gmap strings list fin_maps.

Open Scope string_scope.
Open Scope list_scope.

(** ** Python values *)

(** A dictionary object is identified by its position in the store. *)
Definition loc := nat.

#[local] Set Warnings "-register-all".

Inductive pyval : Type :=
| VNone
| VInt (z : Z)
| VStr (s : string)
| VList (xs : list pyval)      (* lists and tuples *)
| VRef (l : loc).              (* a dict object, by reference *)

(** Dictionary contents; the keys of the model are strings. *)
Abbreviation pydict := (gmap string pyval).

(** The store of dict objects. Allocation appends, nothing is ever freed. *)
Abbreviation store := (list pydict).

Inductive exn : Type :=
| TypeError (msg : string)
| AttributeError (msg : string)
| ValueError (msg : string)
| IndexError (msg : string)
| DanglingReference.           (* cannot arise from a store built by Python *)

Inductive result (A : Type) : Type :=
| Ok (a : A)
| Raise (e : exn).
Arguments Ok {A} a.
Arguments Raise {A} e.

(** ** The state-and-error monad

    [this] is the object a method is running on ([self]); an exception leaves
    the mutations made before it in place, as in Python. *)

Record state (O : Type) : Type := St { heap : store; this : O }.
Arguments St {O} heap this.
Arguments heap {O} s.
Arguments this {O} s.

Definition Py (O A : Type) : Type := state O -> result A * state O.

Definition ret {O A} (x : A) : Py O A := fun st => (Ok x, st).

Definition raise {O A} (e : exn) : Py O A := fun st => (Raise e, st).

Definition bind {O A B} (m : Py O A) (k : A -> Py O B) : Py O B :=
  fun st =>
    match m st with
    | (Ok x, st') => k x st'
    | (Raise e, st') => (Raise e, st')
    end.

Declare Scope py_scope.
Delimit Scope py_scope with py.
Notation "'let*' x ':=' m 'in' k" := (bind m (fun x => k))
  (at level 10, x name, m at level 100, k at level 200, right associativity) : py_scope.
Notation "m ';;' k" := (bind m (fun _ => k))
  (at level 100, k at level 200, right associativity) : py_scope.
Open Scope py_scope.

Definition get_this {O} : Py O O := fun st => (Ok (this st), st).

Definition set_this {O} (o : O) : Py O unit := fun st => (Ok tt, St (heap st) o).

(** [for x in xs: body(x)] *)
Fixpoint for_each {O A} (xs : list A) (body : A -> Py O unit) : Py O unit :=
  match xs with
  | [] => ret tt
  | x :: xs' => body x ;; for_each xs' body
  end.

(** [[f(x) for x in xs]] *)
Fixpoint list_comp {O A B} (xs : list A) (f : A -> Py O B) : Py O (list B) :=
  match xs with
  | [] => ret []
  | x :: xs' => let* y := f x in let* ys := list_comp xs' f in ret (y :: ys)
  end.

(** ** Built-in operations used by the module *)

(** A dict display [{...}]: a new object at the end of the store. *)
Definition new_dict {O} (d : pydict) : Py O pyval :=
  fun st => (Ok (VRef (length (heap st))), St (heap st ++ [d]) (this st)).

Definition read_dict {O} (l : loc) : Py O pydict :=
  fun st =>
    match heap st !! l with
    | Some d => (Ok d, st)
    | None => (Raise DanglingReference, st)
    end.

(** [d[key] = value] on the dict object at [l]. *)
Definition dict_setitem (l : loc) (key : string) (value : pyval) (σ : store) : store :=
  match σ !! l with
  | Some d => <[l := <[key := value]> d]> σ
  | None => σ
  end.

(** [x != None] *)
Definition py_ne_None (x : pyval) : bool :=
  match x with VNone => false | _ => true end.

(** [name == v] for a string [name] *)
Definition str_eq (name : string) (v : pyval) : bool :=
  match v with VStr s => String.eqb name s | _ => false end.

Fixpoint is_substring (sub s : string) : bool :=
  String.prefix sub s
  || match s with
     | EmptyString => false
     | String _ s' => is_substring sub s'
     end.

(** [name in container] for a string [name]: membership in a list, substring
    of a string, key of a dict; anything else is not a container. *)
Definition py_in {O} (name : string) (container : pyval) : Py O bool :=
  match container with
  | VList xs => ret (existsb (str_eq name) xs)
  | VStr s => ret (is_substring name s)
  | VRef l => let* d := read_dict l in ret (bool_decide (is_Some (d !! name)))
  | VNone | VInt _ => raise (TypeError "argument is not iterable")
  end.

Fixpoint chars (s : string) : list pyval :=
  match s with
  | EmptyString => []
  | String c s' => VStr (String c EmptyString) :: chars s'
  end.

(** The items a [for] loop over [v] visits. *)
Definition py_iter {O} (v : pyval) : Py O (list pyval) :=
  match v with
  | VList xs => ret xs
  | VStr s => ret (chars s)
  | VRef l => let* d := read_dict l in ret ((fun kv => VStr (fst kv)) <$> map_to_list d)
  | VNone | VInt _ => raise (TypeError "object is not iterable")
  end.

(** [v + xs] where [xs] is a list: list concatenation, defined on lists only. *)
Definition py_add_list {O} (v : pyval) (xs : list pyval) : Py O pyval :=
  match v with
  | VList ys => ret (VList (ys ++ xs))
  | _ => raise (TypeError "unsupported operand type(s) for +")
  end.

(** [str(n)] for a non-negative integer *)
Definition str (n : nat) : string := NilEmpty.string_of_uint (Nat.to_uint n).

(** [hasattr(v, '__getitem__')] *)
Definition has___getitem__ (v : pyval) : bool :=
  match v with
  | VStr _ | VList _ | VRef _ => true
  | VNone | VInt _ => false
  end.

(** Attribute names are strings; [getattr] and [setattr] reject anything else. *)
Definition attr_name {O} (v : pyval) : Py O string :=
  match v with
  | VStr s => ret s
  | _ => raise (TypeError "attribute name must be string")
  end.

(** Runs [m] on the object [o] and hands back the object it leaves. *)
Definition run_on {O} (o : O) (m : Py O unit) (σ : store) : result O * store :=
  match m (St σ o) with
  | (Ok _, st) => (Ok (this st), heap st)
  | (Raise e, st) => (Raise e, heap st)
  end.

(** ** The part of numpy the module relies on *)

(** What an array holds apart from Python-level attributes. *)
Record ndarray : Type := { shape : list nat; dtype : string; values : list Z }.

Inductive array_like : Type :=
| Seq (xs : list Z)               (* [1, 2, 3] *)
| Rows (rows : list (list Z))     (* [[1, 2], [3, 4]] *)
| Array (b : ndarray).            (* an array, or what a subclass instance holds *)

(** [numpy.asarray]: always a base-class array; rows of unequal length are
    refused. *)
Definition numpy_asarray (x : array_like) : result ndarray :=
  match x with
  | Seq xs => Ok {| shape := [length xs]; dtype := "int64"; values := xs |}
  | Rows [] => Ok {| shape := [0]; dtype := "float64"; values := [] |}
  | Rows (r :: rows) =>
      if forallb (fun r' => Nat.eqb (length r') (length r)) rows
      then Ok {| shape := [S (length rows); length r]; dtype := "int64";
                 values := concat (r :: rows) |}
      else Raise (ValueError "inhomogeneous shape")
  | Array b => Ok b
  end.

(** Operations through which numpy makes a new array from an existing one. *)
Inductive derivation : Type :=
| Slice (start stop : nat)        (* a[start:stop] *)
| ViewCast                        (* a.view(), a.view(type(a)) *)
| Ufunc (f : Z -> Z).             (* elementwise function output *)

Definition derived_buffer (d : derivation) (b : ndarray) : result ndarray :=
  match d with
  | Slice start stop =>
      match shape b with
      | [] => Raise (IndexError "too many indices for array")
      | n :: rest =>
          let lo := start `min` n in
          let hi := lo `max` (stop `min` n) in
          let row := foldr Nat.mul 1 rest in
          Ok {| shape := (hi - lo) :: rest; dtype := dtype b;
                values := take ((hi - lo) * row) (drop (lo * row) (values b)) |}
      end
  | ViewCast => Ok b
  | Ufunc f => Ok {| shape := shape b; dtype := dtype b; values := f <$> values b |}
  end.

(** The state slot of [numpy.ndarray.__reduce__]:
    [(version, shape, dtype, is_fortran, rawdata)]. *)
Record nd_state : Type :=
  { st_version : nat; st_shape : list nat; st_dtype : string;
    st_fortran : bool; st_data : list Z }.

(** The arguments [numpy.ndarray.__reduce__] gives for the reconstructor,
    after the class: [(0,), 'b']. *)
Record reconstruct_args : Type := { ra_shape : list nat; ra_dtype : string }.

Definition ndarray___reduce__ (b : ndarray) : reconstruct_args * nd_state :=
  ({| ra_shape := [0]; ra_dtype := "b" |},
   {| st_version := 1; st_shape := shape b; st_dtype := dtype b;
      st_fortran := false; st_data := values b |}).

Definition ndarray_of_state (s : nd_state) : ndarray :=
  {| shape := st_shape s; dtype := st_dtype s; values := st_data s |}.

(** ** class dmarray(numpy.ndarray) *)

Module dmarray.

(** An instance: the array it holds and its instance dictionary. *)
Record instance : Type := { nd : ndarray; __dict__ : gmap string pyval }.

(** The class attribute [Allowed_Attributes = ['attrs']]. *)
Definition Allowed_Attributes : pyval := VList [VStr "attrs"].

(** The second argument of [__array_finalize__]: [None], a base-class
    array, or an instance of the class. *)
Inductive source : Type :=
| SrcNone
| SrcPlain (b : ndarray)
| SrcInst (a : instance).

(** What [ndarray.__new__(cls, ...)] leaves before any hook has run. *)
Definition blank (b : ndarray) : instance := {| nd := b; __dict__ := ∅ |}.

(** Attribute lookup: the instance dictionary, then the class.  What the
    array type defines itself (shape, dtype, sum, ..., the names of
    [ndarray_defines] further down) is found by the real lookup and is not
    part of the model: for those names this function does not say what the
    code reads. *)
Definition lookup_attr (a : instance) (name : string) : option pyval :=
  match __dict__ a !! name with
  | Some v => Some v
  | None => if String.eqb name "Allowed_Attributes" then Some Allowed_Attributes else None
  end.

(** [self.__getattribute__(name)], [self.name] *)
Definition __getattribute__ (name : string) : Py instance pyval :=
  let* self := get_this in
  match lookup_attr self name with
  | Some v => ret v
  | None => raise (AttributeError "'dmarray' object has no such attribute")
  end.

(** [getattr(obj, name, {})]; the default is recorded in the store only
    when it is the value returned. *)
Definition getattr_or_new_dict (obj : source) (name : string) : Py instance pyval :=
  match obj with
  | SrcInst a =>
      match lookup_attr a name with
      | Some v => ret v
      | None => new_dict ∅
      end
  | SrcPlain _ | SrcNone => new_dict ∅
  end.

(** [super(dmarray, self).__setattr__(name, value)]: the entry of the
    instance dictionary is written.  This is what the base class does for a
    name it does not define; for a name it defines as a property (size,
    shape, dtype, ..., among the names of [ndarray_defines] further down) the
    real call is answered by numpy, and this function does not say how. *)
Definition object___setattr__ (name : string) (value : pyval) : Py instance unit :=
  let* self := get_this in
  set_this {| nd := nd self; __dict__ := <[name := value]> (__dict__ self) |}.

Definition disallowed : exn :=
  TypeError "Only attribute listed in Allowed_Attributes can be set".

Definition __setattr__ (name : string) (value : pyval) : Py instance unit :=
  (if String.eqb name "Allowed_Attributes" then
     ret tt
   else
     let* allowed := __getattribute__ "Allowed_Attributes" in
     let* found := py_in name allowed in
     if negb found then raise disallowed else ret tt) ;;
  object___setattr__ name value.

Definition __array_finalize__ (obj : source) : Py instance unit :=
  match obj with
  | SrcNone => ret tt
  | _ =>
      let* allowed := __getattribute__ "Allowed_Attributes" in
      let* vals := py_iter allowed in
      for_each vals (fun val =>
        let* name := attr_name val in
        let* v := getattr_or_new_dict obj name in
        __setattr__ name v)
  end.

(** [arr.view(cls)], and every other way numpy makes an instance from a
    template: the new object holds [b], and the hook runs with the
    template as [obj]. *)
Definition new_from_template (b : ndarray) (obj : source) (σ : store)
  : result instance * store :=
  run_on (blank b) (__array_finalize__ obj) σ.

Definition __new__ (input_array : array_like) (attrs : pyval) (σ : store)
  : result instance * store :=
  match numpy_asarray input_array with
  | Raise e => (Raise e, σ)
  | Ok b =>
      match new_from_template b (SrcPlain b) σ with
      | (Raise e, σ') => (Raise e, σ')
      | (Ok obj, σ') =>
          run_on obj
            (if py_ne_None attrs then
               __setattr__ "attrs" attrs
             else
               let* d := new_dict ∅ in
               __setattr__ "attrs" d) σ'
      end
  end.

(** A slice, view or ufunc output of [a]. *)
Definition derive (d : derivation) (a : instance) (σ : store)
  : result instance * store :=
  match derived_buffer d (nd a) with
  | Raise e => (Raise e, σ)
  | Ok b => new_from_template b (SrcInst a) σ
  end.

(** The value of [__reduce__]: the reconstructor is always numpy's
    [_reconstruct], called with the class and [r_args]; [r_state] is handed
    to [__setstate__]. *)
Record reduce_value : Type :=
  { r_args : reconstruct_args; r_state : nd_state * list pyval }.

Definition __reduce__ : Py instance reduce_value :=
  let* self := get_this in
  let object_state := ndarray___reduce__ (nd self) in
  let* allowed := __getattribute__ "Allowed_Attributes" in
  let* vals := py_iter allowed in
  let* subclass_state :=
    list_comp vals (fun val => let* name := attr_name val in __getattribute__ name) in
  ret {| r_args := fst object_state;
         r_state := (snd object_state, subclass_state) |}.

(** [numpy.ndarray.__setstate__(self, nd_state)] *)
Definition ndarray___setstate__ (s : nd_state) : Py instance unit :=
  let* self := get_this in
  set_this {| nd := ndarray_of_state s; __dict__ := __dict__ self |}.

(** The body of the loop of [__setstate__], at index [val]. *)
Definition restore_slot (own_state : list pyval) (val : nat) : Py instance unit :=
  match own_state !! val with
  | None => raise (IndexError "tuple index out of range")
  | Some item =>
      if Nat.eqb val 0 then
        __setattr__ "attrs" item
      else
        let* allowed := __getattribute__ "Allowed_Attributes" in
        let* extended := py_add_list allowed [VStr ("extra_attr_" +:+ str val)] in
        __setattr__ "Allowed_Attributes" extended ;;
        __setattr__ ("extra_attr_" +:+ str val) item
  end.

Definition __setstate__ (state : nd_state * list pyval) : Py instance unit :=
  let '(nd_state, own_state) := state in
  ndarray___setstate__ nd_state ;;
  for_each (seq 0 (length own_state)) (restore_slot own_state).

(** numpy's [_reconstruct(cls, shape, dtype)]: an empty array of the class;
    the hook runs with [None]. *)
Definition _reconstruct (args : reconstruct_args) (σ : store)
  : result instance * store :=
  new_from_template {| shape := ra_shape args; dtype := ra_dtype args; values := [] |}
    SrcNone σ.

(** Saving is [__reduce__]; restoring calls the reconstructor and then
    [__setstate__] with the saved state.  The state goes from one to the
    other as it is: how pickle writes it down in between is not part of the
    module, and [__setstate__] stores whatever values reach it. *)
Definition Serialize (a : instance) (σ : store) : result reduce_value * store :=
  match __reduce__ (St σ a) with
  | (r, st) => (r, heap st)
  end.

Definition Deserialize (r : reduce_value) (σ : store) : result instance * store :=
  match _reconstruct (r_args r) σ with
  | (Raise e, σ') => (Raise e, σ')
  | (Ok obj, σ') => run_on obj (__setstate__ (r_state r)) σ'
  end.

(** [a.name = value] *)
Definition SetAttribute (name : string) (value : pyval) (a : instance) (σ : store)
  : result unit * state instance :=
  __setattr__ name value (St σ a).

End dmarray.

(** ** class SpaceData(dict) *)

Module SpaceData.

(** An instance: the dictionary content and the instance dictionary. *)
Record instance : Type := { items : pydict; __dict__ : gmap string pyval }.

(** What [dict.__new__(cls)] leaves before [__init__] has run. *)
Definition blank : instance := {| items := ∅; __dict__ := ∅ |}.

(** A positional argument of [dict(...)]: a dict, or a sequence of
    key/value pairs. *)
Inductive positional : Type :=
| Mapping (l : loc)
| Pairs (kvs : list (string * pyval)).

(** [self.name = value]; the class does not override [__setattr__]. *)
Definition object___setattr__ (name : string) (value : pyval) : Py instance unit :=
  let* self := get_this in
  set_this {| items := items self; __dict__ := <[name := value]> (__dict__ self) |}.

(** [self[key] = value] *)
Definition dict___setitem__ (kv : string * pyval) : Py instance unit :=
  let* self := get_this in
  set_this {| items := <[fst kv := snd kv]> (items self); __dict__ := __dict__ self |}.

(** The [__init__] of [dict], with the arguments passed on: at most one
    positional argument, whose entries are stored first, then the
    keywords. *)
Definition dict___init__ (args : list positional) (kwargs : pydict)
  : Py instance unit :=
  match args with
  | [] => for_each (map_to_list kwargs) dict___setitem__
  | [Mapping l] =>
      let* d := read_dict l in
      for_each (map_to_list d) dict___setitem__ ;;
      for_each (map_to_list kwargs) dict___setitem__
  | [Pairs kvs] =>
      for_each kvs dict___setitem__ ;;
      for_each (map_to_list kwargs) dict___setitem__
  | _ :: _ :: _ => raise (TypeError "dict expected at most 1 arguments")
  end.

Definition __init__ (args : list positional) (kwargs : pydict) : Py instance unit :=
  let* d := new_dict ∅ in
  object___setattr__ "attrs" d ;;
  let* kwargs :=
    match kwargs !! "attrs" with
    | Some given =>
        (if has___getitem__ given then object___setattr__ "attrs" given else ret tt) ;;
        ret (delete "attrs" kwargs)
    | None => ret kwargs
    end in
  dict___init__ args kwargs.

(** A call of the class: a new instance, initialised. *)
Definition Construct (args : list positional) (kwargs : pydict) (σ : store)
  : result instance * store :=
  run_on blank (__init__ args kwargs) σ.

End SpaceData.

(** ** Reading attributes back *)

(** The contents of the dict a value refers to. *)
Definition deref (σ : store) (v : option pyval) : option pydict :=
  match v with
  | Some (VRef l) => σ !! l
  | _ => None
  end.

(** [a.attrs], as contents. *)
Definition attrs_of (σ : store) (a : dmarray.instance) : option pydict :=
  deref σ (dmarray.__dict__ a !! "attrs").

(** Python's [==] on two attribute values, each read in its own store: two
    dicts are equal when their contents are, anything else when it is the
    same value. *)
Definition py_equal (σ1 : store) (v1 : pyval) (σ2 : store) (v2 : pyval) : Prop :=
  match v1, v2 with
  | VRef l1, VRef l2 => σ1 !! l1 = σ2 !! l2
  | _, _ => v1 = v2
  end.

(** Two instances that cannot be told apart by the array they hold, the
    attributes they have and the values of those attributes. *)
Definition same_instance (σ1 : store) (a1 : dmarray.instance)
    (σ2 : store) (a2 : dmarray.instance) : Prop :=
  dmarray.nd a1 = dmarray.nd a2 ∧
  ∀ name : string,
    match dmarray.__dict__ a1 !! name, dmarray.__dict__ a2 !! name with
    | Some v1, Some v2 => py_equal σ1 v1 σ2 v2
    | None, None => True
    | _, _ => False
    end.

(** [a.name = value] carried out: the instance with the entry written. *)
Definition with_attr (a : dmarray.instance) (name : string) (value : pyval)
  : dmarray.instance :=
  {| dmarray.nd := dmarray.nd a;
     dmarray.__dict__ := <[name := value]> (dmarray.__dict__ a) |}.

(** [name in a.Allowed_Attributes], as [__setattr__] evaluates it. *)
Definition allowed (name : string) (a : dmarray.instance) (σ : store) : result bool :=
  fst ((let* allowed := dmarray.__getattribute__ "Allowed_Attributes" in
        py_in name allowed) (St σ a)).

(** [a.attrs[key] = value] *)
Definition attrs_setitem (a : dmarray.instance) (key : string) (value : pyval)
    (σ : store) : store :=
  match dmarray.__dict__ a !! "attrs" with
  | Some (VRef l) => dict_setitem l key value σ
  | _ => σ
  end.

(** The allow-list of [a] is the list of [names]. *)
Definition allow_list (a : dmarray.instance) (names : list string) : Prop :=
  dmarray.lookup_attr a "Allowed_Attributes" = Some (VList (VStr <$> names)).

(** Every attribute among [names] is set on [a]. *)
Definition all_set (a : dmarray.instance) (names : list string) : Prop :=
  Forall (fun name => is_Some (dmarray.lookup_attr a name)) names.

(** What [getattr(obj, name, ...)] finds on [obj], if anything. *)
Definition source_attr (obj : dmarray.source) (name : string) : option pyval :=
  match obj with
  | dmarray.SrcInst a => dmarray.lookup_attr a name
  | dmarray.SrcPlain _ | dmarray.SrcNone => None
  end.

(** The entries a positional argument list brings to [dict(...)]. *)
Definition positional_items (σ : store) (args : list SpaceData.positional)
  : result pydict :=
  match args with
  | [] => Ok ∅
  | [SpaceData.Mapping l] =>
      match σ !! l with
      | Some d => Ok d
      | None => Raise DanglingReference
      end
  | [SpaceData.Pairs kvs] =>
      Ok (foldl (fun (m : pydict) kv => <[fst kv := snd kv]> m) ∅ kvs)
  | _ :: _ :: _ => Raise (TypeError "dict expected at most 1 arguments")
  end.

(** The value [__init__] leaves in [attrs] when the keywords are [kwargs]
    and the next free place of the store is [l]. *)
Definition attrs_after_init (kwargs : pydict) (l : loc) : pyval :=
  match kwargs !! "attrs" with
  | Some given => if has___getitem__ given then given else VRef l
  | None => VRef l
  end.

(** The public names [numpy.ndarray] defines on every array, over the
    versions of numpy: its attributes, then its methods. *)
Definition ndarray_names : list string :=
  [ "T"; "mT"; "base"; "ctypes"; "data"; "device"; "dtype"; "flags"; "flat";
    "imag"; "itemsize"; "nbytes"; "ndim"; "real"; "shape"; "size"; "strides";
    "all"; "any"; "argmax"; "argmin"; "argpartition"; "argsort"; "astype";
    "byteswap"; "choose"; "clip"; "compress"; "conj"; "conjugate"; "copy";
    "cumprod"; "cumsum"; "diagonal"; "dot"; "dump"; "dumps"; "fill"; "flatten";
    "getfield"; "item"; "itemset"; "max"; "mean"; "min"; "newbyteorder";
    "nonzero"; "partition"; "prod"; "ptp"; "put"; "ravel"; "repeat"; "reshape";
    "resize"; "round"; "searchsorted"; "setasflat"; "setfield"; "setflags";
    "sort"; "squeeze"; "std"; "sum"; "swapaxes"; "take"; "to_device"; "tobytes";
    "tofile"; "tolist"; "tostring"; "trace"; "transpose"; "var"; "view" ].

(** The names the array type answers for itself, before or instead of the
    instance dictionary: the special names, which begin with two
    underscores, and the public names of [numpy.ndarray].  For these names
    [dmarray.lookup_attr] and [dmarray.object___setattr__] do not say what
    the code does; statements about reading or writing an attribute of any
    name are made for the names outside this set. *)
Definition ndarray_defines (name : string) : bool :=
  String.prefix "__" name || existsb (String.eqb name) ndarray_names.

(** [name in container] as Python defines it for a string [name]: an element
    of a list, a part of a string, a key of a dict. *)
Definition is_in (σ : store) (container : pyval) (name : string) : Prop :=
  match container with
  | VList xs => VStr name ∈ xs
  | VStr s => ∃ before after, s = before +:+ name +:+ after
  | VRef l => ∃ d : pydict, σ !! l = Some d ∧ is_Some (d !! name)
  | VNone | VInt _ => False
  end.

(** The name under which [__setstate__] restores slot [i], for [i] past 0. *)
Definition extra_attr (i : nat) : string := "extra_attr_" +:+ str i.

(** [['extra_attr_1', ..., 'extra_attr_k']] *)
Definition extra_names (k : nat) : list string := extra_attr <$> seq 1 k.

(** What numpy makes of an array through derivations one after the other. *)
Fixpoint derived_buffers (ds : list derivation) (b : ndarray) : result ndarray :=
  match ds with
  | [] => Ok b
  | d :: ds' =>
      match derived_buffer d b with
      | Ok b' => derived_buffers ds' b'
      | Raise e => Raise e
      end
  end.

(** Derivations one after the other, each from the instance before. *)
Fixpoint derive_chain (ds : list derivation) (a : dmarray.instance) (σ : store)
  : result dmarray.instance * store :=
  match ds with
  | [] => (Ok a, σ)
  | d :: ds' =>
      match dmarray.derive d a σ with
      | (Ok a', σ') => derive_chain ds' a' σ'
      | (Raise e, σ') => (Raise e, σ')
      end
  end.

(** ** Sample objects *)

(** [{"k": "v"}] *)
Definition kv : pydict := {[ "k" := VStr "v" ]}.

Definition one_two_three : ndarray :=
  {| shape := [3]; dtype := "int64"; values := [1; 2; 3]%Z |}.

(** The instance [dmarray([1, 2, 3], attrs=d)] where [d] is the first dict of
    the store. *)
Definition position : dmarray.instance :=
  {| dmarray.nd := one_two_three; dmarray.__dict__ := {[ "attrs" := VRef 0 ]} |}.


(** [position] after [position.Allowed_Attributes = ['attrs', 'units']] and
    [position.units = 'km']. *)
Definition with_units : dmarray.instance :=
  with_attr
    (with_attr position "Allowed_Attributes" (VList [VStr "attrs"; VStr "units"]))
    "units" (VStr "km").

(** [{"x": 1}], [{"unit": "km"}] and [{"attrs": 5}] *)
Definition x_one : pydict := {[ "x" := VInt 1 ]}.
Definition unit_km : pydict := {[ "unit" := VStr "km" ]}.
Definition attrs_five : pydict := {[ "attrs" := VInt 5 ]}.

(** * Properties *)

(** ** The model on the examples of the module *)

Example str_of_index : str 0 = "0" ∧ str 12 = "12".
Proof. split; reflexivity. Qed.

Example in_checks (σ : store) (a : dmarray.instance) :
  fst (py_in "attrs" (VList [VStr "attrs"]) (St σ a)) = Ok true ∧
  fst (py_in "foo" (VList [VStr "attrs"; VInt 3]) (St σ a)) = Ok false ∧
  fst (py_in "attrs" (VStr "my_attrs") (St σ a)) = Ok true ∧
  fst (py_in "attrs" VNone (St σ a)) = Raise (TypeError "argument is not iterable").
Proof. repeat split; reflexivity. Qed.

(** The example of the docstring: [dmarray([1,2,3], attrs={'coord_system':
    'GSM'})]. *)
Example docstring_position :
  ∃ a σ,
    dmarray.__new__ (Seq [1; 2; 3]%Z) (VRef 0) [{[ "coord_system" := VStr "GSM" ]}]
      = (Ok a, σ) ∧
    dmarray.nd a = one_two_three ∧
    attrs_of σ a = Some {[ "coord_system" := VStr "GSM" ]}.
Proof. eexists _, _. split; [reflexivity|]. split; reflexivity. Qed.

Example slice_of_position :
  derived_buffer (Slice 1 3) one_two_three
  = Ok {| shape := [2]; dtype := "int64"; values := [2; 3]%Z |}.
Proof. reflexivity. Qed.

Example ragged_rows_refused :
  numpy_asarray (Rows [[1; 2]; [3]]%Z) = Raise (ValueError "inhomogeneous shape").
Proof. reflexivity. Qed.

(** ** Stepping through the monad *)

Ltac py_run :=
  repeat (progress (unfold bind, ret, raise, get_this, set_this;
                    cbn beta iota; cbn [this heap fst snd])).

Lemma bind_ok {O A B} (m : Py O A) (k : A -> Py O B) st x st' :
  m st = (Ok x, st') → bind m k st = k x st'.
Proof. intros H. unfold bind. by rewrite H. Qed.

(** ** The allow-list *)

Lemma class_level_allow_list a :
  dmarray.__dict__ a !! "Allowed_Attributes" = None →
  dmarray.lookup_attr a "Allowed_Attributes" = Some dmarray.Allowed_Attributes.
Proof. intros H. unfold dmarray.lookup_attr. by rewrite H. Qed.

Lemma lookup_attr_with_attr_ne a name name' v :
  name ≠ name' →
  dmarray.lookup_attr (with_attr a name v) name' = dmarray.lookup_attr a name'.
Proof.
  intros Hne. unfold dmarray.lookup_attr, with_attr. simpl.
  by rewrite lookup_insert_ne.
Qed.

Lemma lookup_attr_with_attr_eq a name v :
  dmarray.lookup_attr (with_attr a name v) name = Some v.
Proof.
  unfold dmarray.lookup_attr, with_attr. simpl. by rewrite lookup_insert_eq.
Qed.

(** What the check of [__setattr__] does, case by case. *)
Lemma setattr_Allowed_Attributes σ a v :
  dmarray.__setattr__ "Allowed_Attributes" v (St σ a)
  = (Ok tt, St σ (with_attr a "Allowed_Attributes" v)).
Proof. reflexivity. Qed.

Lemma setattr_listed σ a name v xs :
  dmarray.lookup_attr a "Allowed_Attributes" = Some (VList xs) →
  existsb (str_eq name) xs = true →
  dmarray.__setattr__ name v (St σ a) = (Ok tt, St σ (with_attr a name v)).
Proof.
  intros Hal Hin. unfold dmarray.__setattr__.
  destruct (String.eqb name "Allowed_Attributes") eqn:E.
  - apply String.eqb_eq in E. subst. apply setattr_Allowed_Attributes.
  - unfold dmarray.__getattribute__. py_run. rewrite Hal.
    unfold py_in. py_run. rewrite Hin. reflexivity.
Qed.

Lemma setattr_not_listed σ a name v xs :
  name ≠ "Allowed_Attributes" →
  dmarray.lookup_attr a "Allowed_Attributes" = Some (VList xs) →
  existsb (str_eq name) xs = false →
  dmarray.__setattr__ name v (St σ a) = (Raise dmarray.disallowed, St σ a).
Proof.
  intros Hne Hal Hin. unfold dmarray.__setattr__.
  destruct (String.eqb name "Allowed_Attributes") eqn:E.
  - apply String.eqb_eq in E. done.
  - unfold dmarray.__getattribute__. py_run. rewrite Hal.
    unfold py_in. py_run. rewrite Hin. reflexivity.
Qed.

(** ** The derivation hook *)

(** On an object whose allow-list is the class's, the hook writes [attrs]
    and nothing else: the source's value, or a new empty dict. *)
Lemma finalize_class_level σ t obj :
  obj ≠ dmarray.SrcNone →
  dmarray.__dict__ t !! "Allowed_Attributes" = None →
  dmarray.__array_finalize__ obj (St σ t)
  = match source_attr obj "attrs" with
    | Some v => (Ok tt, St σ (with_attr t "attrs" v))
    | None => (Ok tt, St (σ ++ [∅]) (with_attr t "attrs" (VRef (length σ))))
    end.
Proof.
  intros Hobj Hcls.
  assert (Hstep : ∀ σ' v,
    dmarray.__setattr__ "attrs" v (St σ' t) = (Ok tt, St σ' (with_attr t "attrs" v))).
  { intros σ' v. apply setattr_listed with (xs := [VStr "attrs"]).
    - by apply class_level_allow_list.
    - reflexivity. }
  assert (Hloop : dmarray.__array_finalize__ obj (St σ t)
    = ((let* v := dmarray.getattr_or_new_dict obj "attrs" in
        dmarray.__setattr__ "attrs" v) ;; ret tt) (St σ t)).
  { destruct obj; [done| |];
      unfold dmarray.__array_finalize__, dmarray.__getattribute__; py_run;
      rewrite (class_level_allow_list _ Hcls); reflexivity. }
  rewrite Hloop. clear Hloop.
  destruct obj as [|b|a]; [done| |]; simpl source_attr.
  - unfold dmarray.getattr_or_new_dict, new_dict. py_run. by rewrite Hstep.
  - unfold dmarray.getattr_or_new_dict.
    destruct (dmarray.lookup_attr a "attrs") as [v|].
    + py_run. by rewrite Hstep.
    + unfold new_dict. py_run. by rewrite Hstep.
Qed.

Lemma new_from_template_inst σ b a :
  dmarray.new_from_template b (dmarray.SrcInst a) σ
  = match dmarray.lookup_attr a "attrs" with
    | Some v => (Ok (with_attr (dmarray.blank b) "attrs" v), σ)
    | None => (Ok (with_attr (dmarray.blank b) "attrs" (VRef (length σ))), σ ++ [∅])
    end.
Proof.
  unfold dmarray.new_from_template, run_on.
  rewrite finalize_class_level; [|done|done]. simpl.
  by destruct (dmarray.lookup_attr a "attrs").
Qed.

Lemma lookup_attr_attrs a :
  dmarray.lookup_attr a "attrs" = dmarray.__dict__ a !! "attrs".
Proof. unfold dmarray.lookup_attr. by destruct (dmarray.__dict__ a !! "attrs"). Qed.

(** C1. A new instance derived from [a] by a slice, a view cast or a ufunc
    has the attrs of [a]: when [a.attrs] is a mapping with contents [m] (for
    one, [{"k": "v"}]), the derived instance's attrs is a mapping with
    contents [m] right after the derivation. Where numpy refuses the
    operation, no instance is made. *)
Theorem derive_preserves_attrs (σ : store) (a : dmarray.instance)
    (d : derivation) (m : pydict) :
  attrs_of σ a = Some m →
  match derived_buffer d (dmarray.nd a) with
  | Ok b => ∃ a', dmarray.derive d a σ = (Ok a', σ) ∧
                  dmarray.nd a' = b ∧ attrs_of σ a' = Some m
  | Raise e => dmarray.derive d a σ = (Raise e, σ)
  end.
Proof.
  intros Hm. unfold dmarray.derive.
  destruct (derived_buffer d (dmarray.nd a)) as [b|e]; [|done].
  rewrite new_from_template_inst, lookup_attr_attrs.
  unfold attrs_of in Hm.
  destruct (dmarray.__dict__ a !! "attrs") as [v|] eqn:Hv; [|done].
  eexists. split; [done|]. split; [done|].
  unfold attrs_of, with_attr. simpl. by rewrite lookup_insert_eq.
Qed.

Lemma derive_preserves_attrs_witness :
  attrs_of [kv] position = Some kv ∧
  ∃ a', dmarray.derive (Slice 0 2) position [kv] = (Ok a', [kv]) ∧
        dmarray.nd a' = {| shape := [2]; dtype := "int64"; values := [1; 2]%Z |} ∧
        attrs_of [kv] a' = Some kv.
Proof.
  split; [reflexivity|].
  exact (derive_preserves_attrs [kv] position (Slice 0 2) kv eq_refl).
Defined.

(** ** Construction *)

Lemma with_attr_twice a name v w :
  with_attr (with_attr a name v) name w = with_attr a name w.
Proof. unfold with_attr. simpl. by rewrite insert_insert_eq. Qed.

Lemma new_ok σ x b attrs :
  numpy_asarray x = Ok b →
  dmarray.__new__ x attrs σ
  = if py_ne_None attrs
    then (Ok (with_attr (dmarray.blank b) "attrs" attrs), σ ++ [∅])
    else (Ok (with_attr (dmarray.blank b) "attrs" (VRef (S (length σ)))),
          (σ ++ [∅]) ++ [∅]).
Proof.
  intros Hx. unfold dmarray.__new__, dmarray.new_from_template, run_on.
  rewrite Hx, finalize_class_level; [|done|done]. simpl source_attr. cbv iota beta.
  cbn [this heap].
  assert (Hstep : ∀ σ' v,
    dmarray.__setattr__ "attrs" v
      (St σ' (with_attr (dmarray.blank b) "attrs" (VRef (length σ))))
    = (Ok tt, St σ' (with_attr (dmarray.blank b) "attrs" v))).
  { intros σ' v. rewrite <- (with_attr_twice _ _ (VRef (length σ)) v).
    apply setattr_listed with (xs := [VStr "attrs"]); [|reflexivity].
    apply class_level_allow_list. reflexivity. }
  destruct (py_ne_None attrs).
  - by rewrite Hstep.
  - unfold new_dict. py_run. rewrite Hstep. simpl.
    by rewrite length_app, Nat.add_1_r.
Qed.

(** C7. For an input numpy accepts, [dmarray(x, attrs=m)] with [m] a mapping
    is an instance holding the array of [x] whose attrs is [m] itself, and
    [dmarray(x)] is one whose attrs is an empty mapping. *)
Theorem new_sets_attrs (σ : store) (x : array_like) (b : ndarray) :
  numpy_asarray x = Ok b →
  (∀ (l : loc) (m : pydict), σ !! l = Some m →
     ∃ a σ', dmarray.__new__ x (VRef l) σ = (Ok a, σ') ∧
             dmarray.nd a = b ∧
             dmarray.__dict__ a !! "attrs" = Some (VRef l) ∧
             attrs_of σ' a = Some m) ∧
  (∃ a σ', dmarray.__new__ x VNone σ = (Ok a, σ') ∧
           dmarray.nd a = b ∧
           attrs_of σ' a = Some ∅).
Proof.
  intros Hx. split.
  - intros l m Hl. rewrite (new_ok _ _ _ _ Hx). simpl.
    eexists _, _. split; [done|]. split; [done|].
    unfold attrs_of, with_attr. simpl. rewrite lookup_insert_eq.
    split; [done|]. simpl. by apply lookup_app_l_Some.
  - rewrite (new_ok _ _ _ _ Hx). simpl.
    eexists _, _. split; [done|]. split; [done|].
    unfold attrs_of, with_attr. simpl. rewrite lookup_insert_eq. simpl.
    rewrite lookup_app_r; rewrite length_app; simpl; [|lia].
    by replace (S (length σ) - (length σ + 1)) with 0 by lia.
Qed.

Lemma new_sets_attrs_witness :
  numpy_asarray (Seq [1; 2; 3]%Z) = Ok one_two_three ∧
  (∃ a σ', dmarray.__new__ (Seq [1; 2; 3]%Z) (VRef 0) [kv] = (Ok a, σ') ∧
           dmarray.nd a = one_two_three ∧
           dmarray.__dict__ a !! "attrs" = Some (VRef 0) ∧
           attrs_of σ' a = Some kv) ∧
  (∃ a σ', dmarray.__new__ (Seq [1; 2; 3]%Z) VNone [kv] = (Ok a, σ') ∧
           dmarray.nd a = one_two_three ∧
           attrs_of σ' a = Some ∅).
Proof.
  split; [reflexivity|].
  destruct (new_sets_attrs [kv] (Seq [1; 2; 3]%Z) one_two_three eq_refl) as [H1 H2].
  split; [exact (H1 0 kv eq_refl) | exact H2].
Defined.

(** ** The check in [__setattr__] *)

(** The check reads the allow-list and the store and changes neither. *)
Lemma setattr_by_allowed σ a name v :
  name ≠ "Allowed_Attributes" →
  dmarray.__setattr__ name v (St σ a)
  = match allowed name a σ with
    | Ok true => (Ok tt, St σ (with_attr a name v))
    | Ok false => (Raise dmarray.disallowed, St σ a)
    | Raise e => (Raise e, St σ a)
    end.
Proof.
  intros Hne. unfold dmarray.__setattr__, allowed.
  destruct (String.eqb name "Allowed_Attributes") eqn:E.
  { apply String.eqb_eq in E. done. }
  unfold dmarray.__getattribute__. py_run.
  destruct (dmarray.lookup_attr a "Allowed_Attributes") as [al|]; [|done].
  destruct al as [|z|s|xs|l]; unfold py_in; py_run; try done.
  - by destruct (is_substring name s).
  - by destruct (existsb (str_eq name) xs).
  - unfold read_dict. py_run. destruct (σ !! l) as [d|]; [|done].
    by destruct (bool_decide (is_Some (d !! name))).
Qed.

Lemma new_allow_list σ x attrs a σ' :
  dmarray.__new__ x attrs σ = (Ok a, σ') →
  dmarray.lookup_attr a "Allowed_Attributes" = Some dmarray.Allowed_Attributes.
Proof.
  intros H. destruct (numpy_asarray x) as [b|e] eqn:Hx.
  2: { unfold dmarray.__new__ in H. by rewrite Hx in H. }
  rewrite (new_ok _ _ _ _ Hx) in H.
  apply class_level_allow_list.
  destruct (py_ne_None attrs); inversion H; subst; reflexivity.
Qed.

(** What [in] evaluates to, against [is_in]. *)
Lemma str_eq_true name v : str_eq name v = true ↔ v = VStr name.
Proof.
  destruct v as [|z|s|xs|l]; simpl; try (split; [discriminate|discriminate]).
  rewrite String.eqb_eq. split; [by intros -> | by intros [= ->]].
Qed.

Lemma existsb_str_eq name xs : existsb (str_eq name) xs = true ↔ VStr name ∈ xs.
Proof.
  rewrite existsb_exists. split.
  - intros (v & Hv & Heq). apply str_eq_true in Heq. subst.
    by apply list_elem_of_In.
  - intros H. exists (VStr name). split; [by apply list_elem_of_In|].
    by apply str_eq_true.
Qed.

Lemma prefix_spec (a b : string) :
  String.prefix a b = true ↔ ∃ after, b = a +:+ after.
Proof.
  revert b. induction a as [|c a IH]; intros b.
  - destruct b; simpl; split; eauto.
  - destruct b as [|c' b]; simpl.
    + split; [discriminate|]. intros [after H]. discriminate H.
    + destruct (Ascii.ascii_dec c c') as [->|Hne].
      * rewrite IH. split; intros [after H]; exists after; [by rewrite H|].
        by inversion H.
      * split; [discriminate|]. intros [after H]. inversion H. by subst.
Qed.

Lemma is_substring_spec (sub s : string) :
  is_substring sub s = true ↔ ∃ before after, s = before +:+ sub +:+ after.
Proof.
  induction s as [|c s IH].
  - cbn [is_substring]. rewrite orb_false_r, prefix_spec. split.
    + intros [after H]. by exists "", after.
    + intros (before & after & H). destruct before; [|discriminate H].
      by exists after.
  - cbn [is_substring]. rewrite orb_true_iff, prefix_spec, IH. split.
    + intros [[after H]|(before & after & H)].
      * by exists "", after.
      * exists (String c before), after. simpl. by rewrite H.
    + intros (before & after & H). destruct before as [|c' before].
      * left. by exists after.
      * right. exists before, after. simpl in H. by inversion H.
Qed.

Lemma allowed_spec σ a name al :
  dmarray.lookup_attr a "Allowed_Attributes" = Some al →
  allowed name a σ = Ok true ↔ is_in σ al name.
Proof.
  intros Hal. unfold allowed, dmarray.__getattribute__. py_run. rewrite Hal.
  destruct al as [|z|s|xs|l]; unfold py_in; py_run; simpl.
  - split; [discriminate|done].
  - split; [discriminate|done].
  - rewrite <- is_substring_spec. split; [by intros [= ->] | by intros ->].
  - rewrite <- existsb_str_eq. split; [by intros [= ->] | by intros ->].
  - unfold read_dict. py_run. destruct (σ !! l) as [d|]; simpl.
    + split.
      * intros [= H]. apply bool_decide_eq_true in H. by exists d.
      * intros (d' & [= <-] & H). by rewrite bool_decide_eq_true_2.
    + split; [discriminate|]. by intros (d & H & _).
Qed.

(** C3, amended. For a name the array type does not define itself,
    [a.name = value] goes through, the attribute being written, exactly when
    [name] is ["Allowed_Attributes"] or [name in a.Allowed_Attributes]
    holds.  For every name, when neither holds the assignment raises and the
    instance and the store are as they were, with the error of
    [__setattr__] when the allow-list is a list.  On an instance that
    [dmarray(...)] has just made, setting [foo] raises that error and
    setting [attrs] goes through. *)
Theorem setattr_allowed_exactly (σ : store) (a : dmarray.instance) (name : string)
    (v al : pyval) :
  dmarray.lookup_attr a "Allowed_Attributes" = Some al →
  (ndarray_defines name = false →
     (dmarray.SetAttribute name v a σ = (Ok tt, St σ (with_attr a name v)) ↔
      name = "Allowed_Attributes" ∨ is_in σ al name)) ∧
  (¬ (name = "Allowed_Attributes" ∨ is_in σ al name) →
     ∃ e, dmarray.SetAttribute name v a σ = (Raise e, St σ a)) ∧
  (∀ xs, al = VList xs → name ≠ "Allowed_Attributes" → VStr name ∉ xs →
     dmarray.SetAttribute name v a σ = (Raise dmarray.disallowed, St σ a)) ∧
  (∀ x attrs σ0, dmarray.__new__ x attrs σ0 = (Ok a, σ) →
     dmarray.SetAttribute "foo" (VInt 1) a σ = (Raise dmarray.disallowed, St σ a) ∧
     dmarray.SetAttribute "attrs" v a σ = (Ok tt, St σ (with_attr a "attrs" v))).
Proof.
  intros Hal. unfold dmarray.SetAttribute.
  assert (Hfresh : ∀ x attrs σ0, dmarray.__new__ x attrs σ0 = (Ok a, σ) →
    dmarray.__setattr__ "foo" (VInt 1) (St σ a) = (Raise dmarray.disallowed, St σ a) ∧
    dmarray.__setattr__ "attrs" v (St σ a) = (Ok tt, St σ (with_attr a "attrs" v))).
  { intros x attrs σ0 Hnew. apply new_allow_list in Hnew. split.
    - by apply setattr_not_listed with (xs := [VStr "attrs"]).
    - by apply setattr_listed with (xs := [VStr "attrs"]). }
  destruct (decide (name = "Allowed_Attributes")) as [->|Hne].
  - split; [|split; [|split; [done | exact Hfresh]]].
    + intros _. split; [by left|]. intros _. apply setattr_Allowed_Attributes.
    + intros H. exfalso. apply H. by left.
  - rewrite (setattr_by_allowed _ _ _ _ Hne).
    pose proof (allowed_spec σ a name al Hal) as Hspec.
    split; [|split; [|split; [|exact Hfresh]]].
    + intros _. split.
      * intros H. right. apply Hspec. by destruct (allowed name a σ) as [[]|].
      * intros [?|Hin]; [done|]. apply Hspec in Hin. by rewrite Hin.
    + intros Hnot. destruct (allowed name a σ) as [[]|e]; eauto.
      exfalso. apply Hnot. right. by apply Hspec.
    + intros xs -> _ Hnin.
      assert (Hf : allowed name a σ = Ok false).
      { unfold allowed, dmarray.__getattribute__. py_run. rewrite Hal.
        unfold py_in. py_run. simpl.
        destruct (existsb (str_eq name) xs) eqn:E; [|done].
        apply existsb_str_eq in E. done. }
      by rewrite Hf.
Qed.

(** C3 as stated fails: on an instance with the class's allow-list, setting
    [Allowed_Attributes] goes through although that name is neither
    ["attrs"] nor in the allow-list. *)
Lemma setattr_Allowed_Attributes_passes :
  dmarray.lookup_attr position "Allowed_Attributes" = Some (VList [VStr "attrs"]) ∧
  ¬ ((∃ st, dmarray.SetAttribute "Allowed_Attributes" VNone position [kv] = (Ok tt, st)) ↔
     ("Allowed_Attributes" = "attrs" ∨
      is_in [kv] (VList [VStr "attrs"]) "Allowed_Attributes")).
Proof.
  split; [reflexivity|].
  intros [H _]. destruct H as [H|H].
  - eexists. reflexivity.
  - discriminate H.
  - simpl in H. apply list_elem_of_singleton in H. discriminate H.
Qed.

Lemma setattr_allowed_exactly_witness :
  dmarray.lookup_attr position "Allowed_Attributes" = Some (VList [VStr "attrs"]) ∧
  is_in [kv; ∅] (VList [VStr "attrs"]) "attrs" ∧
  (¬ ("foo" = "Allowed_Attributes" ∨ is_in [kv; ∅] (VList [VStr "attrs"]) "foo")) ∧
  ndarray_defines "attrs" = false ∧
  dmarray.__new__ (Seq [1; 2; 3]%Z) (VRef 0) [kv] = (Ok position, [kv; ∅]) ∧
  dmarray.SetAttribute "attrs" (VInt 1) position [kv; ∅]
    = (Ok tt, St [kv; ∅] (with_attr position "attrs" (VInt 1))) ∧
  (∃ e, dmarray.SetAttribute "foo" (VInt 1) position [kv; ∅]
        = (Raise e, St [kv; ∅] position)) ∧
  dmarray.SetAttribute "foo" (VInt 1) position [kv; ∅]
    = (Raise dmarray.disallowed, St [kv; ∅] position) ∧
  (dmarray.SetAttribute "foo" (VInt 1) position [kv; ∅]
     = (Raise dmarray.disallowed, St [kv; ∅] position) ∧
   dmarray.SetAttribute "attrs" (VRef 1) position [kv; ∅]
     = (Ok tt, St [kv; ∅] (with_attr position "attrs" (VRef 1)))).
Proof.
  assert (H0 : dmarray.lookup_attr position "Allowed_Attributes"
               = Some (VList [VStr "attrs"])) by reflexivity.
  assert (Hin : is_in [kv; ∅] (VList [VStr "attrs"]) "attrs").
  { simpl. by apply list_elem_of_singleton. }
  assert (Hnin : VStr "foo" ∉ [VStr "attrs"]).
  { intros H. apply list_elem_of_singleton in H. discriminate H. }
  assert (H1 : ¬ ("foo" = "Allowed_Attributes" ∨
                  is_in [kv; ∅] (VList [VStr "attrs"]) "foo")).
  { intros [H|H]; [discriminate H | exact (Hnin H)]. }
  assert (H2 : "foo" ≠ "Allowed_Attributes") by (intros H; discriminate H).
  assert (H3 : ndarray_defines "attrs" = false) by reflexivity.
  assert (H4 : dmarray.__new__ (Seq [1; 2; 3]%Z) (VRef 0) [kv]
               = (Ok position, [kv; ∅])) by reflexivity.
  destruct (setattr_allowed_exactly [kv; ∅] position "foo" (VInt 1) _ H0)
    as (_ & F2 & F3 & _).
  destruct (setattr_allowed_exactly [kv; ∅] position "attrs" (VInt 1) _ H0)
    as (A1 & _).
  destruct (setattr_allowed_exactly [kv; ∅] position "attrs" (VRef 1) _ H0)
    as (_ & _ & _ & N4).
  destruct (A1 H3) as [_ A5].
  split; [exact H0|]. split; [exact Hin|]. split; [exact H1|].
  split; [exact H3|]. split; [exact H4|].
  split; [exact (A5 (or_intror Hin))|].
  split; [exact (F2 H1)|].
  split; [exact (F3 _ eq_refl H2 Hnin)|].
  exact (N4 _ _ _ H4).
Defined.

(** ** Restoring a saved state *)

(** C4. Restoring a saved state whose attribute tuple has three slots gives
    an instance with [attrs] from slot 0, [extra_attr_1] and [extra_attr_2]
    from slots 1 and 2, and an allow-list that has grown by the two names,
    so that [extra_attr_1] can be set afterwards. *)
Theorem deserialize_two_extra_slots (σ : store) (args : reconstruct_args)
    (nds : nd_state) (v0 v1 v2 : pyval) :
  ∃ b, dmarray.Deserialize
         {| dmarray.r_args := args; dmarray.r_state := (nds, [v0; v1; v2]) |} σ
       = (Ok b, σ) ∧
       dmarray.nd b = ndarray_of_state nds ∧
       dmarray.__dict__ b !! "attrs" = Some v0 ∧
       dmarray.__dict__ b !! "extra_attr_1" = Some v1 ∧
       dmarray.__dict__ b !! "extra_attr_2" = Some v2 ∧
       dmarray.lookup_attr b "Allowed_Attributes"
         = Some (VList [VStr "attrs"; VStr "extra_attr_1"; VStr "extra_attr_2"]) ∧
       ∀ (newval : pyval) (σ' : store),
         dmarray.SetAttribute "extra_attr_1" newval b σ'
         = (Ok tt, St σ' (with_attr b "extra_attr_1" newval)).
Proof.
  eexists. split; [vm_compute; reflexivity|].
  do 5 (split; [reflexivity|]).
  intros newval σ'. unfold dmarray.SetAttribute.
  eapply setattr_listed; reflexivity.
Qed.

(** ** Sharing of the attrs object *)

Lemma dict_setitem_lookup (σ : store) l key value m :
  σ !! l = Some m →
  dict_setitem l key value σ !! l = Some (<[key := value]> m).
Proof.
  intros H. unfold dict_setitem. rewrite H.
  apply list_lookup_insert_eq. by eapply lookup_lt_Some.
Qed.

(** C5, amended. An instance derived from a source whose attrs is set holds
    the very object the source holds, not a copy: the derivation leaves the
    store as it is, and an item stored through the attrs of either instance
    shows in the attrs of the other.  Where numpy refuses the operation, no
    instance is made. *)
Theorem derive_shares_attrs (σ : store) (a : dmarray.instance)
    (d : derivation) (v : pyval) :
  dmarray.__dict__ a !! "attrs" = Some v →
  match derived_buffer d (dmarray.nd a) with
  | Ok b =>
      ∃ a', dmarray.derive d a σ = (Ok a', σ) ∧
            dmarray.nd a' = b ∧
            dmarray.__dict__ a' !! "attrs" = Some v ∧
            ∀ (m : pydict) (key : string) (value : pyval),
              attrs_of σ a = Some m →
              attrs_of (attrs_setitem a' key value σ) a = Some (<[key := value]> m) ∧
              attrs_of (attrs_setitem a key value σ) a' = Some (<[key := value]> m)
  | Raise e => dmarray.derive d a σ = (Raise e, σ)
  end.
Proof.
  intros Hv. unfold dmarray.derive.
  destruct (derived_buffer d (dmarray.nd a)) as [b|e]; [|done].
  rewrite new_from_template_inst, lookup_attr_attrs, Hv.
  assert (Hv' : dmarray.__dict__ (with_attr (dmarray.blank b) "attrs" v) !! "attrs"
                = Some v).
  { unfold with_attr. simpl. by rewrite lookup_insert_eq. }
  eexists. split; [done|]. split; [done|]. split; [done|].
  intros m key value Hm. unfold attrs_of, attrs_setitem in *.
  rewrite Hv', Hv in *. destruct v as [| | | |l]; try done. simpl in *.
  split; by apply dict_setitem_lookup.
Qed.

(** C5 as stated fails: after a view of [position] is taken, storing an item
    through the attrs of the view changes the attrs of [position]. *)
Lemma derived_attrs_not_a_copy :
  ∃ a', dmarray.derive ViewCast position [kv] = (Ok a', [kv]) ∧
        attrs_of [kv] position = Some kv ∧
        attrs_of (attrs_setitem a' "x" (VInt 1) [kv]) position ≠ Some kv.
Proof.
  eexists. split; [reflexivity|]. split; [reflexivity|].
  intros H. apply (f_equal (fun o => o ≫= (.!! "x"))) in H.
  vm_compute in H. discriminate H.
Qed.

Lemma derive_shares_attrs_witness :
  dmarray.__dict__ position !! "attrs" = Some (VRef 0) ∧
  attrs_of [kv] position = Some kv ∧
  ∃ a', dmarray.derive (Slice 0 2) position [kv] = (Ok a', [kv]) ∧
        attrs_of (attrs_setitem a' "x" (VInt 1) [kv]) position
          = Some (<["x" := VInt 1]> kv) ∧
        attrs_of (attrs_setitem position "x" (VInt 1) [kv]) a'
          = Some (<["x" := VInt 1]> kv).
Proof.
  assert (H1 : dmarray.__dict__ position !! "attrs" = Some (VRef 0)) by reflexivity.
  assert (H3 : attrs_of [kv] position = Some kv) by reflexivity.
  destruct (derive_shares_attrs [kv] position (Slice 0 2) (VRef 0) H1)
    as (a' & Hd & _ & _ & G).
  split; [exact H1|]. split; [exact H3|].
  exists a'. split; [exact Hd|]. exact (G kv "x" (VInt 1) H3).
Defined.

(** ** The hook on a new instance *)

Lemma py_equal_refl σ v : py_equal σ v σ v.
Proof. by destruct v. Qed.

Lemma same_instance_refl σ a : same_instance σ a σ a.
Proof.
  split; [done|]. intros name.
  destruct (dmarray.__dict__ a !! name); [apply py_equal_refl | done].
Qed.

Lemma lookup_snoc (σ : store) (d : pydict) : (σ ++ [d]) !! length σ = Some d.
Proof. by rewrite lookup_app_r, Nat.sub_diag. Qed.

Lemma same_instance_fresh_attrs (σ1 σ2 : store) b l1 l2 d :
  σ1 !! l1 = Some d → σ2 !! l2 = Some d →
  same_instance σ1 (with_attr (dmarray.blank b) "attrs" (VRef l1)) σ2
    (with_attr (with_attr (dmarray.blank b) "attrs" (VRef l1)) "attrs" (VRef l2)).
Proof.
  intros H1 H2. rewrite with_attr_twice. split; [done|]. intros name.
  unfold with_attr. simpl.
  destruct (decide (name = "attrs")) as [->|Hne].
  - rewrite !lookup_insert_eq. simpl. by rewrite H1, H2.
  - rewrite !lookup_insert_ne by done. by rewrite lookup_empty.
Qed.

(** C6, amended. On a new instance the hook never raises, whether the source
    is [None], a plain array or an instance, and running it a second time
    with the same source leaves an instance with the same array, the same
    attributes and equal values.  With [None] it sets nothing.  With an array
    as the source, [attrs] is the source's value when the source has one, and
    a new empty mapping when it lacks it. *)
Theorem finalize_total_idempotent (σ : store) (b : ndarray) (obj : dmarray.source) :
  ∃ a' σ',
    dmarray.new_from_template b obj σ = (Ok a', σ') ∧
    (∃ a'' σ'',
       run_on a' (dmarray.__array_finalize__ obj) σ' = (Ok a'', σ'') ∧
       same_instance σ' a' σ'' a'') ∧
    match obj with
    | dmarray.SrcNone => a' = dmarray.blank b ∧ σ' = σ
    | _ =>
        match source_attr obj "attrs" with
        | Some v => dmarray.__dict__ a' !! "attrs" = Some v ∧ σ' = σ
        | None => attrs_of σ' a' = Some ∅
        end
    end.
Proof.
  assert (Hcases : obj = dmarray.SrcNone ∨ obj ≠ dmarray.SrcNone)
    by (destruct obj; [by left | by right | by right]).
  destruct Hcases as [->|Hobj].
  { exists (dmarray.blank b), σ. split; [reflexivity|]. split; [|done].
    exists (dmarray.blank b), σ. split; [reflexivity|]. apply same_instance_refl. }
  unfold dmarray.new_from_template, run_on.
  rewrite finalize_class_level by done.
  assert (Hshape :
    match source_attr obj "attrs" with
    | Some v =>
        ∃ a'' σ'',
          run_on (with_attr (dmarray.blank b) "attrs" v)
            (dmarray.__array_finalize__ obj) σ = (Ok a'', σ'') ∧
          same_instance σ (with_attr (dmarray.blank b) "attrs" v) σ'' a''
    | None =>
        ∃ a'' σ'',
          run_on (with_attr (dmarray.blank b) "attrs" (VRef (length σ)))
            (dmarray.__array_finalize__ obj) (σ ++ [∅]) = (Ok a'', σ'') ∧
          same_instance (σ ++ [∅])
            (with_attr (dmarray.blank b) "attrs" (VRef (length σ))) σ'' a''
    end).
  { unfold run_on.
    destruct (source_attr obj "attrs") as [v|] eqn:Hsrc.
    - rewrite finalize_class_level, Hsrc by done. simpl.
      eexists _, _. split; [done|]. rewrite with_attr_twice.
      apply same_instance_refl.
    - rewrite finalize_class_level, Hsrc by done. simpl.
      eexists _, _. split; [done|].
      apply same_instance_fresh_attrs with (d := ∅); apply lookup_snoc. }
  destruct (source_attr obj "attrs") as [v|] eqn:Hsrc; simpl.
  - eexists _, _. split; [done|]. split; [exact Hshape|].
    destruct obj; [done| |]; unfold with_attr; simpl; by rewrite lookup_insert_eq.
  - eexists _, _. split; [done|]. split; [exact Hshape|].
    destruct obj; [done| |]; unfold attrs_of, with_attr; simpl;
      rewrite lookup_insert_eq; simpl; apply lookup_snoc.
Qed.

(** C6 as stated fails for [None]: the source has no [attrs], and the new
    instance is left without one instead of getting an empty mapping. *)
Lemma finalize_None_sets_nothing :
  source_attr dmarray.SrcNone "attrs" = None ∧
  ∃ a', dmarray.new_from_template one_two_three dmarray.SrcNone [] = (Ok a', []) ∧
        dmarray.lookup_attr a' "attrs" = None ∧
        attrs_of [] a' ≠ Some ∅.
Proof.
  split; [reflexivity|]. eexists. split; [reflexivity|]. split; [reflexivity|].
  intros H. discriminate H.
Qed.

(** ** Saving and restoring *)

Lemma getattribute_found σ a name v :
  dmarray.lookup_attr a name = Some v →
  dmarray.__getattribute__ name (St σ a) = (Ok v, St σ a).
Proof. intros H. unfold dmarray.__getattribute__. py_run. by rewrite H. Qed.

(** The slots [__reduce__] collects are the values of the listed attributes,
    in the order of the list. *)
Lemma reduce_slots σ a names :
  all_set a names →
  ∃ vs,
    list_comp (VStr <$> names)
      (fun val => let* name := attr_name val in dmarray.__getattribute__ name) (St σ a)
    = (Ok vs, St σ a) ∧
    Forall2 (fun name v => dmarray.lookup_attr a name = Some v) names vs.
Proof.
  induction names as [|name names IH]; intros Hset.
  - exists []. split; [reflexivity | constructor].
  - apply Forall_cons in Hset as [[v Hv] Hset].
    destruct (IH Hset) as (vs & Hvs & Hall).
    exists (v :: vs). split; [|by constructor].
    rewrite fmap_cons. cbn [list_comp].
    erewrite bind_ok; [|by apply (getattribute_found _ _ _ _ Hv)].
    erewrite bind_ok; [|exact Hvs]. reflexivity.
Qed.

Lemma reduce_ok σ a names :
  allow_list a names → all_set a names →
  ∃ vs,
    dmarray.Serialize a σ
    = (Ok {| dmarray.r_args := fst (ndarray___reduce__ (dmarray.nd a));
             dmarray.r_state := (snd (ndarray___reduce__ (dmarray.nd a)), vs) |}, σ) ∧
    Forall2 (fun name v => dmarray.lookup_attr a name = Some v) names vs.
Proof.
  intros Hal Hset. destruct (reduce_slots σ a names Hset) as (vs & Hvs & Hall).
  exists vs. split; [|done].
  unfold dmarray.Serialize, dmarray.__reduce__.
  erewrite bind_ok; [|reflexivity]. cbv zeta.
  erewrite bind_ok; [|by apply (getattribute_found _ _ _ _ Hal)].
  erewrite bind_ok; [|reflexivity].
  erewrite bind_ok; [|exact Hvs]. reflexivity.
Qed.

Lemma extra_attr_not_attrs i : "extra_attr_" +:+ str i ≠ "attrs".
Proof. intros H. simpl in H. discriminate H. Qed.

Lemma extra_attr_not_allow_list i : "extra_attr_" +:+ str i ≠ "Allowed_Attributes".
Proof. intros H. simpl in H. discriminate H. Qed.

(** One turn of the loop of [__setstate__] past the first: the allow-list
    grows by the new name and the attribute is written. *)
Lemma restore_slot_extra σ t own i item L :
  i ≠ 0 → own !! i = Some item →
  dmarray.lookup_attr t "Allowed_Attributes" = Some (VList L) →
  dmarray.restore_slot own i (St σ t)
  = (Ok tt,
     St σ (with_attr
             (with_attr t "Allowed_Attributes"
                (VList (L ++ [VStr ("extra_attr_" +:+ str i)])))
             ("extra_attr_" +:+ str i) item)).
Proof.
  intros Hi Hitem HL. unfold dmarray.restore_slot. rewrite Hitem.
  destruct (Nat.eqb_spec i 0) as [|_]; [done|].
  rewrite (bind_ok _ _ _ _ _ (getattribute_found _ _ _ _ HL)).
  unfold py_add_list. py_run.
  apply setattr_listed with (xs := L ++ [VStr ("extra_attr_" +:+ str i)]).
  - apply lookup_attr_with_attr_eq.
  - rewrite existsb_app. simpl. rewrite String.eqb_refl. by rewrite !orb_true_r.
Qed.






(** ** SpaceData *)

Lemma for_each_setitem σ kvs : ∀ t,
  for_each kvs SpaceData.dict___setitem__ (St σ t)
  = (Ok tt,
     St σ {| SpaceData.items :=
               foldl (fun (m : pydict) kv => <[fst kv := snd kv]> m)
                 (SpaceData.items t) kvs;
             SpaceData.__dict__ := SpaceData.__dict__ t |}).
Proof.
  induction kvs as [|kv kvs IH]; intros t.
  - by destruct t.
  - simpl. unfold SpaceData.dict___setitem__ at 1. py_run. by rewrite IH.
Qed.

Lemma foldl_insert_union (kvs : list (string * pyval)) : ∀ m0 : pydict,
  NoDup (fst <$> kvs) →
  foldl (fun (m : pydict) kv => <[fst kv := snd kv]> m) m0 kvs
  = list_to_map kvs ∪ m0.
Proof.
  induction kvs as [|[k v] kvs IH]; intros m0 Hnd.
  - simpl. by rewrite (left_id_L ∅ (∪)).
  - rewrite fmap_cons in Hnd. apply NoDup_cons in Hnd as [Hk Hnd].
    simpl. rewrite IH by done.
    rewrite <- insert_union_l. symmetry. apply insert_union_r.
    by apply not_elem_of_list_to_map_1.
Qed.

Lemma foldl_insert_map (d m0 : pydict) :
  foldl (fun (m : pydict) kv => <[fst kv := snd kv]> m) m0 (map_to_list d) = d ∪ m0.
Proof.
  rewrite foldl_insert_union by apply NoDup_fst_map_to_list.
  by rewrite list_to_map_to_list.
Qed.

(** The ordinary constructor on a new instance: the keywords laid over the
    positional entries. *)
Lemma dict_init_blank σ args kwargs attrs :
  SpaceData.dict___init__ args kwargs
    (St σ {| SpaceData.items := ∅; SpaceData.__dict__ := attrs |})
  = match positional_items σ args with
    | Ok p => (Ok tt, St σ {| SpaceData.items := kwargs ∪ p;
                              SpaceData.__dict__ := attrs |})
    | Raise e => (Raise e, St σ {| SpaceData.items := ∅;
                                   SpaceData.__dict__ := attrs |})
    end.
Proof.
  destruct args as [|[l|kvs] [|arg args]]; simpl; try done.
  - rewrite for_each_setitem. simpl. by rewrite foldl_insert_map.
  - unfold read_dict. py_run. destruct (σ !! l) as [d|]; [|done].
    rewrite !for_each_setitem. simpl. rewrite !foldl_insert_map.
    by rewrite (right_id_L ∅ (∪)).
  - py_run. rewrite !for_each_setitem. simpl. by rewrite foldl_insert_map.
Qed.

(** What a call of the class amounts to. *)
Lemma construct_eq σ args kwargs :
  SpaceData.Construct args kwargs σ
  = match positional_items (σ ++ [∅]) args with
    | Ok p =>
        (Ok {| SpaceData.items := delete "attrs" kwargs ∪ p;
               SpaceData.__dict__ :=
                 {[ "attrs" := attrs_after_init kwargs (length σ) ]} |},
         σ ++ [∅])
    | Raise e => (Raise e, σ ++ [∅])
    end.
Proof.
  unfold SpaceData.Construct, run_on, SpaceData.__init__, attrs_after_init.
  unfold new_dict, SpaceData.object___setattr__. py_run.
  destruct (kwargs !! "attrs") as [given|] eqn:Hkw.
  - destruct (has___getitem__ given); py_run;
      rewrite ?insert_insert_eq, dict_init_blank;
      by destruct (positional_items (σ ++ [∅]) args).
  - py_run. rewrite dict_init_blank, (delete_id _ _ Hkw).
    by destruct (positional_items (σ ++ [∅]) args).
Qed.

(** C8. [SpaceData(d, attrs=m)], with [d] and [m] dicts, is a mapping with
    the entries of [d] whose attrs is [m]; [SpaceData(attrs=m)] is an empty
    mapping whose attrs is [m].  For [SpaceData({"x": 1}, attrs={"unit":
    "km"})], looking up ["x"] gives 1 and attrs is [{"unit": "km"}]. *)
Theorem construct_entries_and_attrs (σ : store) (lx lm : loc) (d m : pydict) :
  σ !! lx = Some d → σ !! lm = Some m →
  (∃ sd σ',
     SpaceData.Construct [SpaceData.Mapping lx] {[ "attrs" := VRef lm ]} σ = (Ok sd, σ') ∧
     SpaceData.items sd = d ∧
     SpaceData.__dict__ sd !! "attrs" = Some (VRef lm) ∧
     deref σ' (SpaceData.__dict__ sd !! "attrs") = Some m) ∧
  (∃ sd σ',
     SpaceData.Construct [] {[ "attrs" := VRef lm ]} σ = (Ok sd, σ') ∧
     SpaceData.items sd = ∅ ∧
     SpaceData.__dict__ sd !! "attrs" = Some (VRef lm) ∧
     deref σ' (SpaceData.__dict__ sd !! "attrs") = Some m).
Proof.
  intros Hx Hm.
  assert (Hx' : (σ ++ [∅]) !! lx = Some d) by by apply lookup_app_l_Some.
  assert (Hm' : (σ ++ [∅]) !! lm = Some m) by by apply lookup_app_l_Some.
  assert (Hat : attrs_after_init {[ "attrs" := VRef lm ]} (length σ) = VRef lm).
  { unfold attrs_after_init. by rewrite lookup_singleton_eq. }
  split; rewrite construct_eq; cbn [positional_items]; rewrite ?Hx', Hat;
    eexists _, _; (split; [reflexivity|]);
    cbn [SpaceData.items SpaceData.__dict__];
    rewrite delete_singleton_eq, (left_id_L ∅ (∪)), lookup_singleton_eq;
    by cbn [deref].
Qed.

Lemma construct_entries_and_attrs_witness :
  [x_one; unit_km] !! 0 = Some x_one ∧
  [x_one; unit_km] !! 1 = Some unit_km ∧
  (∃ sd σ',
     SpaceData.Construct [SpaceData.Mapping 0] {[ "attrs" := VRef 1 ]} [x_one; unit_km]
       = (Ok sd, σ') ∧
     SpaceData.items sd !! "x" = Some (VInt 1) ∧
     deref σ' (SpaceData.__dict__ sd !! "attrs") = Some unit_km) ∧
  (∃ sd σ',
     SpaceData.Construct [] {[ "attrs" := VRef 1 ]} [x_one; unit_km] = (Ok sd, σ') ∧
     SpaceData.items sd = ∅ ∧
     deref σ' (SpaceData.__dict__ sd !! "attrs") = Some unit_km).
Proof.
  assert (H0 : [x_one; unit_km] !! 0 = Some x_one) by reflexivity.
  assert (H1 : [x_one; unit_km] !! 1 = Some unit_km) by reflexivity.
  destruct (construct_entries_and_attrs [x_one; unit_km] 0 1 x_one unit_km H0 H1)
    as [(sd & σ' & Hc & Hi & _ & Ha) (sd2 & σ2 & Hc2 & Hi2 & _ & Ha2)].
  split; [exact H0|]. split; [exact H1|]. split.
  - exists sd, σ'. split; [exact Hc|]. split; [|exact Ha]. rewrite Hi. reflexivity.
  - exists sd2, σ2. split; [exact Hc2|]. split; [exact Hi2 | exact Ha2].
Defined.

Lemma positional_items_grow (σ σ2 : store) args p :
  positional_items σ args = Ok p → positional_items (σ ++ σ2) args = Ok p.
Proof.
  destruct args as [|[l|kvs] [|arg args]]; simpl; try done.
  destruct (σ !! l) as [d|] eqn:Hl; [|done].
  intros H. by rewrite (lookup_app_l_Some _ _ _ _ Hl).
Qed.

(** C9. When the keywords of [SpaceData(...)] have an [attrs], the ordinary
    constructor runs with the keywords without it, so that the key ["attrs"]
    of the content can only come from the positional entries; the value
    given becomes the attrs of the instance when it has [__getitem__], and
    the attrs is a new empty mapping when it has not. *)
Theorem attrs_keyword_intercepted (σ : store) (args : list SpaceData.positional)
    (kwargs p : pydict) (given : pyval) :
  kwargs !! "attrs" = Some given →
  positional_items σ args = Ok p →
  SpaceData.Construct args kwargs σ
  = run_on {| SpaceData.items := ∅;
              SpaceData.__dict__ :=
                {[ "attrs" := if has___getitem__ given then given
                              else VRef (length σ) ]} |}
      (SpaceData.dict___init__ args (delete "attrs" kwargs)) (σ ++ [∅]) ∧
  ∃ sd,
    SpaceData.Construct args kwargs σ = (Ok sd, σ ++ [∅]) ∧
    SpaceData.items sd = delete "attrs" kwargs ∪ p ∧
    SpaceData.items sd !! "attrs" = p !! "attrs" ∧
    (has___getitem__ given = true →
       SpaceData.__dict__ sd !! "attrs" = Some given) ∧
    (has___getitem__ given = false →
       SpaceData.__dict__ sd !! "attrs" = Some (VRef (length σ)) ∧
       deref (σ ++ [∅]) (SpaceData.__dict__ sd !! "attrs") = Some ∅).
Proof.
  intros Hkw Hp. apply positional_items_grow with (σ2 := [∅]) in Hp. split.
  - rewrite construct_eq. unfold run_on. rewrite dict_init_blank, Hp.
    unfold attrs_after_init. by rewrite Hkw.
  - rewrite construct_eq, Hp. eexists. split; [reflexivity|]. simpl.
    split; [done|]. split.
    { rewrite lookup_union, lookup_delete_eq. by destruct (p !! "attrs"). }
    unfold attrs_after_init. rewrite Hkw, lookup_singleton_eq.
    split; intros ->; [done|]. split; [done|]. simpl. apply lookup_snoc.
Qed.

Lemma attrs_keyword_intercepted_witness :
  ({[ "attrs" := VInt 7; "y" := VInt 2 ]} : pydict) !! "attrs" = Some (VInt 7) ∧
  positional_items [x_one] [SpaceData.Mapping 0] = Ok x_one ∧
  has___getitem__ (VInt 7) = false ∧
  ∃ sd,
    SpaceData.Construct [SpaceData.Mapping 0] {[ "attrs" := VInt 7; "y" := VInt 2 ]}
      [x_one] = (Ok sd, [x_one; ∅]) ∧
    SpaceData.items sd !! "attrs" = None ∧
    SpaceData.items sd !! "x" = Some (VInt 1) ∧
    SpaceData.items sd !! "y" = Some (VInt 2) ∧
    SpaceData.__dict__ sd !! "attrs" = Some (VRef 1) ∧
    deref [x_one; ∅] (SpaceData.__dict__ sd !! "attrs") = Some ∅.
Proof.
  assert (H1 : ({[ "attrs" := VInt 7; "y" := VInt 2 ]} : pydict) !! "attrs"
               = Some (VInt 7)) by reflexivity.
  assert (H2 : positional_items [x_one] [SpaceData.Mapping 0] = Ok x_one)
    by reflexivity.
  assert (H3 : has___getitem__ (VInt 7) = false) by reflexivity.
  destruct (attrs_keyword_intercepted [x_one] [SpaceData.Mapping 0] _ x_one (VInt 7)
              H1 H2) as (_ & sd & Hc & Hi & Ha & _ & Hf).
  destruct (Hf H3) as [Hf1 Hf2].
  split; [exact H1|]. split; [exact H2|]. split; [exact H3|].
  exists sd. split; [exact Hc|]. split; [rewrite Ha; reflexivity|].
  split; [rewrite Hi; reflexivity|].
  split; [rewrite Hi; reflexivity|]. split; [exact Hf1 | exact Hf2].
Defined.

(** C10. Only the keyword is intercepted: when the positional dict has the
    key ["attrs"], that entry is content of the new mapping, whatever the
    keywords are, and with no [attrs] keyword the attrs of the instance is a
    new empty mapping. *)
Theorem positional_attrs_is_content (σ : store) (l : loc) (d kwargs : pydict)
    (v : pyval) :
  σ !! l = Some d → d !! "attrs" = Some v →
  ∃ sd,
    SpaceData.Construct [SpaceData.Mapping l] kwargs σ = (Ok sd, σ ++ [∅]) ∧
    SpaceData.items sd !! "attrs" = Some v ∧
    (kwargs !! "attrs" = None →
       SpaceData.__dict__ sd !! "attrs" = Some (VRef (length σ)) ∧
       deref (σ ++ [∅]) (SpaceData.__dict__ sd !! "attrs") = Some ∅).
Proof.
  intros Hl Hv. rewrite construct_eq. simpl.
  rewrite (lookup_app_l_Some _ _ _ _ Hl).
  eexists. split; [reflexivity|]. simpl. split.
  - by rewrite lookup_union, lookup_delete_eq, Hv.
  - intros Hkw. unfold attrs_after_init. rewrite Hkw, lookup_singleton_eq.
    split; [done|]. simpl. apply lookup_snoc.
Qed.

Lemma positional_attrs_is_content_witness :
  [attrs_five] !! 0 = Some attrs_five ∧
  attrs_five !! "attrs" = Some (VInt 5) ∧
  (∅ : pydict) !! "attrs" = None ∧
  ∃ sd,
    SpaceData.Construct [SpaceData.Mapping 0] ∅ [attrs_five] = (Ok sd, [attrs_five; ∅]) ∧
    SpaceData.items sd !! "attrs" = Some (VInt 5) ∧
    SpaceData.__dict__ sd !! "attrs" = Some (VRef 1) ∧
    deref [attrs_five; ∅] (SpaceData.__dict__ sd !! "attrs") = Some ∅.
Proof.
  assert (H1 : [attrs_five] !! 0 = Some attrs_five) by reflexivity.
  assert (H2 : attrs_five !! "attrs" = Some (VInt 5)) by reflexivity.
  assert (H3 : (∅ : pydict) !! "attrs" = None) by reflexivity.
  destruct (positional_attrs_is_content [attrs_five] 0 attrs_five ∅ (VInt 5) H1 H2)
    as (sd & Hc & Hi & Ha).
  destruct (Ha H3) as [Ha1 Ha2].
  split; [exact H1|]. split; [exact H2|]. split; [exact H3|].
  exists sd. split; [exact Hc|]. split; [exact Hi|]. split; [exact Ha1 | exact Ha2].
Defined.

(** * Further properties of the module *)

(** ** The names of the restored slots *)

Lemma str_inj i j : str i = str j → i = j.
Proof.
  unfold str. intros H. apply Unsigned.to_uint_inj.
  apply (f_equal NilEmpty.uint_of_string) in H.
  rewrite !NilEmpty.usu in H. by inversion H.
Qed.

Lemma extra_attr_inj i j : extra_attr i = extra_attr j → i = j.
Proof. unfold extra_attr. simpl. intros H. apply str_inj. by inversion H. Qed.

Lemma extra_attr_not_attrs' i : extra_attr i ≠ "attrs".
Proof. apply extra_attr_not_attrs. Qed.

Lemma extra_attr_not_allow_list' i : extra_attr i ≠ "Allowed_Attributes".
Proof. apply extra_attr_not_allow_list. Qed.

(** The loop of [__setstate__] past slot 0, with everything it writes: the
    allow-list grows by one name a turn, each slot lands under its own name,
    and no other attribute is touched. *)
Lemma restore_tail_full σ own idxs : ∀ t L,
  Forall (fun i => i ≠ 0 ∧ is_Some (own !! i)) idxs →
  NoDup idxs →
  dmarray.lookup_attr t "Allowed_Attributes" = Some (VList L) →
  ∃ t',
    for_each idxs (dmarray.restore_slot own) (St σ t) = (Ok tt, St σ t') ∧
    dmarray.nd t' = dmarray.nd t ∧
    dmarray.lookup_attr t' "Allowed_Attributes"
      = Some (VList (L ++ (VStr <$> (extra_attr <$> idxs)))) ∧
    (∀ i, i ∈ idxs → dmarray.__dict__ t' !! extra_attr i = own !! i) ∧
    (∀ name, name ≠ "Allowed_Attributes" →
       (∀ i, i ∈ idxs → name ≠ extra_attr i) →
       dmarray.__dict__ t' !! name = dmarray.__dict__ t !! name).
Proof.
  induction idxs as [|i idxs IH]; intros t L Hidx Hnd HL.
  - exists t. split; [done|]. split; [done|]. split.
    { by rewrite app_nil_r. }
    split; [|done]. intros i Hi. by apply elem_of_nil in Hi.
  - apply Forall_cons in Hidx as [[Hi [item Hitem]] Hidx].
    apply NoDup_cons in Hnd as [Hni Hnd].
    cbn [for_each].
    rewrite (bind_ok _ _ _ _ _ (restore_slot_extra _ _ _ _ _ _ Hi Hitem HL)).
    fold (extra_attr i).
    set (t1 := with_attr
                 (with_attr t "Allowed_Attributes" (VList (L ++ [VStr (extra_attr i)])))
                 (extra_attr i) item).
    destruct (IH t1 (L ++ [VStr (extra_attr i)]) Hidx Hnd)
      as (t' & Hrun & Hnd' & Hal & Hslots & Hframe).
    { unfold t1. rewrite lookup_attr_with_attr_ne by apply extra_attr_not_allow_list'.
      apply lookup_attr_with_attr_eq. }
    exists t'. split; [exact Hrun|]. split; [by rewrite Hnd'|]. split.
    { rewrite Hal, !fmap_cons, <- app_assoc. reflexivity. }
    split.
    + intros j Hj. apply elem_of_cons in Hj as [->|Hj]; [|by apply Hslots].
      rewrite Hframe.
      * unfold t1, with_attr. cbn [dmarray.__dict__].
        by rewrite lookup_insert_eq, Hitem.
      * apply extra_attr_not_allow_list'.
      * intros j Hj Heq. apply extra_attr_inj in Heq. by subst.
    + intros name Hname Hother. rewrite Hframe.
      * unfold t1, with_attr. cbn [dmarray.__dict__].
        rewrite lookup_insert_ne.
        { by rewrite lookup_insert_ne. }
        intros Heq. apply (Hother i); [by left | done].
      * done.
      * intros j Hj. apply Hother. by right.
Qed.

(** ** Restoring a state of any length *)

(** The reconstructor leaves a blank object, and the hook, run with [None],
    leaves it blank. *)
Lemma reconstruct_blank σ args :
  dmarray._reconstruct args σ
  = (Ok (dmarray.blank {| shape := ra_shape args; dtype := ra_dtype args;
                          values := [] |}), σ).
Proof. reflexivity. Qed.

(** [__setstate__] with at least one slot, on a blank object. *)
Lemma setstate_blank_full σ b0 nds v0 vs :
  ∃ b,
    run_on (dmarray.blank b0) (dmarray.__setstate__ (nds, v0 :: vs)) σ = (Ok b, σ) ∧
    dmarray.nd b = ndarray_of_state nds ∧
    dmarray.__dict__ b !! "attrs" = Some v0 ∧
    (∀ i, 0 < i → dmarray.__dict__ b !! extra_attr i = (v0 :: vs) !! i) ∧
    allow_list b ("attrs" :: extra_names (length vs)) ∧
    dmarray.__dict__ b !! "Allowed_Attributes"
      = (if vs is [] then None
         else Some (VList (VStr <$> "attrs" :: extra_names (length vs)))) ∧
    (∀ name, name ≠ "attrs" → name ≠ "Allowed_Attributes" →
       (∀ i, 0 < i ≤ length vs → name ≠ extra_attr i) →
       dmarray.__dict__ b !! name = None).
Proof.
  unfold run_on, dmarray.__setstate__, dmarray.ndarray___setstate__. py_run.
  cbn [length seq for_each]. py_run.
  unfold dmarray.restore_slot at 1. cbn [lookup list_lookup Nat.eqb].
  set (t0 := {| dmarray.nd := ndarray_of_state nds;
                dmarray.__dict__ := dmarray.__dict__ (dmarray.blank b0) |}).
  assert (Hfirst : dmarray.__setattr__ "attrs" v0 (St σ t0)
                   = (Ok tt, St σ (with_attr t0 "attrs" v0))).
  { by apply setattr_listed with (xs := [VStr "attrs"]). }
  rewrite Hfirst.
  destruct (restore_tail_full σ (v0 :: vs) (seq 1 (length vs))
              (with_attr t0 "attrs" v0) [VStr "attrs"])
    as (t' & Hrun & Hnd & Hal & Hslots & Hframe).
  { apply Forall_forall. intros i Hi. apply elem_of_seq in Hi. split; [lia|].
    apply lookup_lt_is_Some. simpl. lia. }
  { apply NoDup_seq. }
  { reflexivity. }
  rewrite Hrun. exists t'. split; [done|]. split; [by rewrite Hnd|].
  assert (Hbase : ∀ name, name ≠ "attrs" →
            dmarray.__dict__ (with_attr t0 "attrs" v0) !! name = None).
  { intros name Hne. unfold with_attr, t0. cbn.
    rewrite lookup_insert_ne by done. apply lookup_empty. }
  split.
  { rewrite Hframe.
    - unfold with_attr. cbn [dmarray.__dict__]. by rewrite lookup_insert_eq.
    - done.
    - intros i _ Heq. symmetry in Heq. by apply extra_attr_not_attrs' in Heq. }
  split.
  { intros i Hi. destruct (decide (i ≤ length vs)%nat) as [Hle|Hgt].
    - apply Hslots. apply elem_of_seq. lia.
    - rewrite Hframe.
      + rewrite Hbase by apply extra_attr_not_attrs'.
        symmetry. apply lookup_ge_None. simpl. lia.
      + apply extra_attr_not_allow_list'.
      + intros j Hj Heq. apply extra_attr_inj in Heq. subst.
        apply elem_of_seq in Hj. lia. }
  split.
  { unfold allow_list. rewrite Hal. reflexivity. }
  split.
  { destruct vs as [|v1 vs].
    - cbn [length seq for_each] in Hrun. inversion Hrun; subst.
      unfold with_attr, t0. cbn. rewrite lookup_insert_ne by done.
      apply lookup_empty.
    - unfold dmarray.lookup_attr in Hal.
      destruct (dmarray.__dict__ t' !! "Allowed_Attributes") as [w|] eqn:Hw.
      + exact Hal.
      + exfalso. cbn in Hal. discriminate Hal. }
  intros name Hattrs Hal' Hextra. rewrite Hframe; [by apply Hbase | done |].
  intros i Hi. apply Hextra. apply elem_of_seq in Hi. lia.
Qed.

(** X1. Restoring a saved state with any number of slots never fails on the
    object the reconstructor makes: the array is the saved one, [attrs] is
    slot 0 (unset when there is no slot), slot [i] past 0 is the attribute
    [extra_attr_i], the allow-list is ['attrs', 'extra_attr_1', ...] with
    one name a slot (an attribute of the instance once there is a slot past
    0), and the instance has no attribute besides these. *)
Theorem deserialize_any_slots (σ : store) (args : reconstruct_args)
    (nds : nd_state) (own : list pyval) :
  ∃ b,
    dmarray.Deserialize {| dmarray.r_args := args; dmarray.r_state := (nds, own) |} σ
    = (Ok b, σ) ∧
    dmarray.nd b = ndarray_of_state nds ∧
    dmarray.__dict__ b !! "attrs" = own !! 0 ∧
    (∀ i, 0 < i → dmarray.__dict__ b !! extra_attr i = own !! i) ∧
    allow_list b ("attrs" :: extra_names (length own - 1)) ∧
    dmarray.__dict__ b !! "Allowed_Attributes"
      = (if decide (length own ≤ 1)%nat then None
         else Some (VList (VStr <$> "attrs" :: extra_names (length own - 1)))) ∧
    (∀ name, name ≠ "attrs" → name ≠ "Allowed_Attributes" →
       (∀ i, 0 < i < length own → name ≠ extra_attr i) →
       dmarray.__dict__ b !! name = None).
Proof.
  unfold dmarray.Deserialize. rewrite reconstruct_blank.
  cbn [dmarray.r_args dmarray.r_state].
  destruct own as [|v0 vs].
  - eexists. split; [reflexivity|]. split; [reflexivity|].
    split; [reflexivity|]. split; [|split; [reflexivity|split; [reflexivity|]]].
    + intros i _. cbn. by rewrite lookup_empty.
    + intros name _ _ _. cbn. by rewrite lookup_empty.
  - destruct (setstate_blank_full σ
                {| shape := ra_shape args; dtype := ra_dtype args; values := [] |}
                nds v0 vs) as (b & Hrun & Hnd & Hattrs & Hslots & Hal & Hdict & Hframe).
    exists b. split; [exact Hrun|]. split; [exact Hnd|]. split; [exact Hattrs|].
    split; [exact Hslots|].
    cbn [length]. replace (S (length vs) - 1) with (length vs) by lia.
    split; [exact Hal|]. split.
    + rewrite Hdict. destruct vs as [|v1 vs]; [done|].
      cbn [length]. by rewrite decide_False by lia.
    + intros name H1 H2 H3. apply Hframe; [done|done|].
      intros i Hi. apply H3. lia.
Qed.

(** ** What saving reads and when it fails *)

Lemma getattribute_frame (name : string) (st : state dmarray.instance) :
  snd (dmarray.__getattribute__ name st) = st.
Proof.
  unfold dmarray.__getattribute__. py_run.
  by destruct (dmarray.lookup_attr (this st) name).
Qed.

Lemma py_iter_frame (v : pyval) (st : state dmarray.instance) :
  snd (py_iter v st) = st.
Proof.
  destruct v as [|z|s|xs|l]; try done.
  unfold py_iter, read_dict. py_run. by destruct (heap st !! l).
Qed.

Lemma list_comp_getattribute_frame (vals : list pyval) (st : state dmarray.instance) :
  snd (list_comp vals
         (fun val => let* name := attr_name val in dmarray.__getattribute__ name) st)
  = st.
Proof.
  induction vals as [|val vals IH]; [done|].
  cbn [list_comp]. unfold bind at 1.
  destruct val as [|z|s|xs|l]; try done.
  unfold bind at 1. cbn [attr_name]. unfold ret at 1.
  pose proof (getattribute_frame s st) as Hg.
  destruct (dmarray.__getattribute__ s st) as [[v|e] st1]; simpl in Hg; subst st1;
    [|done].
  unfold bind at 1.
  destruct (list_comp vals _ st) as [[vs|e] st2] eqn:Hl; simpl in IH; by subst st2.
Qed.

(** X2. [__reduce__] only reads: whatever the allow-list holds and whether
    it returns or raises, the instance and the store are as they were. *)
Theorem reduce_changes_nothing (σ : store) (a : dmarray.instance) :
  snd (dmarray.__reduce__ (St σ a)) = St σ a ∧
  snd (dmarray.Serialize a σ) = σ.
Proof.
  assert (H : snd (dmarray.__reduce__ (St σ a)) = St σ a).
  { unfold dmarray.__reduce__. unfold bind at 1. unfold get_this at 1.
    cbv zeta. unfold bind at 1.
    pose proof (getattribute_frame "Allowed_Attributes" (St σ a)) as Hg.
    destruct (dmarray.__getattribute__ "Allowed_Attributes" (St σ a))
      as [[al|e] st1]; simpl in Hg; subst st1; [|done].
    unfold bind at 1.
    pose proof (py_iter_frame al (St σ a)) as Hi.
    destruct (py_iter al (St σ a)) as [[vals|e] st2]; simpl in Hi; subst st2; [|done].
    unfold bind at 1.
    pose proof (list_comp_getattribute_frame vals (St σ a)) as Hl.
    destruct (list_comp vals _ (St σ a)) as [[vs|e] st3]; simpl in Hl; by subst st3. }
  split; [exact H|].
  unfold dmarray.Serialize.
  destruct (dmarray.__reduce__ (St σ a)) as [r st]. simpl in *. by subst st.
Qed.

Lemma reduce_slots_unset σ a names :
  ¬ all_set a names →
  list_comp (VStr <$> names)
    (fun val => let* name := attr_name val in dmarray.__getattribute__ name) (St σ a)
  = (Raise (AttributeError "'dmarray' object has no such attribute"), St σ a).
Proof.
  induction names as [|name names IH]; intros Hset.
  - exfalso. apply Hset. constructor.
  - rewrite fmap_cons. cbn [list_comp].
    destruct (dmarray.lookup_attr a name) as [v|] eqn:Hv.
    + erewrite bind_ok; [|by apply (getattribute_found _ _ _ _ Hv)].
      unfold bind at 1. rewrite IH; [done|].
      intros Hrest. apply Hset. constructor; [by exists v | done].
    + unfold bind at 1. unfold bind at 1. cbn [attr_name]. unfold ret at 1.
      unfold dmarray.__getattribute__. py_run. by rewrite Hv.
Qed.

(** X3. For an instance whose allow-list is a list of names, none of them a
    name the array type defines itself, saving returns exactly when every
    listed attribute is set; when one is not, it raises [AttributeError],
    and the store is untouched.  (A name the array type defines is always
    found by [__getattribute__], set or not, and is left out here.) *)
Theorem serialize_needs_all_set (σ : store) (a : dmarray.instance)
    (names : list string) :
  allow_list a names →
  Forall (fun name => ndarray_defines name = false) names →
  ((∃ r, dmarray.Serialize a σ = (Ok r, σ)) ↔ all_set a names) ∧
  (¬ all_set a names →
   dmarray.Serialize a σ
   = (Raise (AttributeError "'dmarray' object has no such attribute"), σ)).
Proof.
  intros Hal _.
  assert (Hfail : ¬ all_set a names →
    dmarray.Serialize a σ
    = (Raise (AttributeError "'dmarray' object has no such attribute"), σ)).
  { intros Hset. unfold dmarray.Serialize, dmarray.__reduce__.
    erewrite bind_ok; [|reflexivity]. cbv zeta.
    erewrite bind_ok; [|by apply (getattribute_found _ _ _ _ Hal)].
    erewrite bind_ok; [|reflexivity].
    unfold bind at 1. by rewrite (reduce_slots_unset _ _ _ Hset). }
  split; [|exact Hfail]. split.
  - intros [r Hr]. destruct (decide (all_set a names)) as [|Hset]; [done|].
    rewrite (Hfail Hset) in Hr. discriminate Hr.
  - intros Hset. destruct (reduce_ok σ a names Hal Hset) as (vs & Hser & _).
    eexists. exact Hser.
Qed.

Lemma serialize_needs_all_set_witness :
  allow_list (dmarray.blank one_two_three) ["attrs"] ∧
  Forall (fun name => ndarray_defines name = false) ["attrs"] ∧
  ¬ all_set (dmarray.blank one_two_three) ["attrs"] ∧
  dmarray.Serialize (dmarray.blank one_two_three) [kv]
  = (Raise (AttributeError "'dmarray' object has no such attribute"), [kv]).
Proof.
  assert (H1 : allow_list (dmarray.blank one_two_three) ["attrs"]) by reflexivity.
  assert (H0 : Forall (fun name => ndarray_defines name = false) ["attrs"]).
  { constructor; [reflexivity | constructor]. }
  assert (H2 : ¬ all_set (dmarray.blank one_two_three) ["attrs"]).
  { intros H. apply Forall_cons in H as [[v Hv] _]. discriminate Hv. }
  destruct (serialize_needs_all_set [kv] (dmarray.blank one_two_three) ["attrs"] H1 H0)
    as [_ G].
  exact (conj H1 (conj H0 (conj H2 (G H2)))).
Defined.

(** ** Saving, restoring and saving again *)

Lemma lookup_attr_dict a name :
  name ≠ "Allowed_Attributes" →
  dmarray.lookup_attr a name = dmarray.__dict__ a !! name.
Proof.
  intros Hne. unfold dmarray.lookup_attr.
  destruct (dmarray.__dict__ a !! name); [done|].
  destruct (String.eqb_spec name "Allowed_Attributes"); done.
Qed.

Lemma extra_names_lookup k n : k < n → extra_names n !! k = Some (extra_attr (S k)).
Proof.
  intros Hk. unfold extra_names. rewrite list_lookup_fmap, lookup_seq_lt by done.
  reflexivity.
Qed.

Lemma length_extra_names n : length (extra_names n) = n.
Proof. unfold extra_names. by rewrite length_fmap, length_seq. Qed.

(** The slots a restored instance gives when it is saved are the slots it
    was restored from. *)
Lemma restored_slots b v0 vs :
  dmarray.__dict__ b !! "attrs" = Some v0 →
  (∀ i, 0 < i → dmarray.__dict__ b !! extra_attr i = (v0 :: vs) !! i) →
  Forall2 (fun name v => dmarray.lookup_attr b name = Some v)
    ("attrs" :: extra_names (length vs)) (v0 :: vs).
Proof.
  intros Hattrs Hslots. constructor.
  - by rewrite lookup_attr_attrs.
  - apply Forall2_same_length_lookup_2.
    + by rewrite length_extra_names.
    + intros k name v Hname Hv.
      assert (Hk : k < length vs) by by eapply lookup_lt_Some.
      rewrite extra_names_lookup in Hname by done. inversion Hname; subst.
      rewrite lookup_attr_dict by apply extra_attr_not_allow_list'.
      rewrite Hslots by lia. exact Hv.
Qed.

Lemma Forall2_functional {A B} (f : A → option B) (xs : list A) (ys1 ys2 : list B) :
  Forall2 (fun x y => f x = Some y) xs ys1 →
  Forall2 (fun x y => f x = Some y) xs ys2 →
  ys1 = ys2.
Proof.
  intros H1. revert ys2. induction H1 as [|x y xs ys Hxy _ IH]; intros ys2 H2.
  - by inversion H2.
  - inversion H2 as [|? y2 ? ys2' Hxy2 Hrest]; subst.
    rewrite Hxy in Hxy2. inversion Hxy2; subst. f_equal. by apply IH.
Qed.

(** X4. For an instance whose allow-list is a list of names that begins
    with ["attrs"], with every listed attribute set: saving and restoring
    keeps the value of every listed attribute in its position, the k-th name
    after [attrs] coming back as [extra_attr_k]; the allow-list of the
    restored instance is ['attrs', 'extra_attr_1', ...]; and saving the
    restored instance gives the saved state again. *)
Theorem roundtrip_keeps_positions (σ : store) (a : dmarray.instance)
    (names : list string) :
  allow_list a ("attrs" :: names) →
  all_set a ("attrs" :: names) →
  ∃ r b,
    dmarray.Serialize a σ = (Ok r, σ) ∧
    dmarray.Deserialize r σ = (Ok b, σ) ∧
    allow_list b ("attrs" :: extra_names (length names)) ∧
    (∀ k name, names !! k = Some name →
       is_Some (dmarray.lookup_attr a name) ∧
       dmarray.__dict__ b !! extra_attr (S k) = dmarray.lookup_attr a name) ∧
    dmarray.Serialize b σ = (Ok r, σ).
Proof.
  intros Hal Hset.
  destruct (reduce_ok σ a _ Hal Hset) as (vs & Hser & Hall).
  apply Forall2_cons_inv_l in Hall as (v0 & vs' & Hv0 & Hrest & ->).
  pose proof (Forall2_length _ _ _ Hrest) as Hlen.
  eexists _. rewrite Hser.
  unfold dmarray.Deserialize. rewrite reconstruct_blank.
  cbn [dmarray.r_args dmarray.r_state].
  destruct (setstate_blank_full σ
              {| shape := ra_shape (fst (ndarray___reduce__ (dmarray.nd a)));
                 dtype := ra_dtype (fst (ndarray___reduce__ (dmarray.nd a)));
                 values := [] |}
              (snd (ndarray___reduce__ (dmarray.nd a))) v0 vs')
    as (b & Hrun & Hnd & Hattrs & Hslots & Halb & _ & _).
  exists b. split; [done|]. split; [exact Hrun|].
  rewrite <- Hlen in Halb. split; [exact Halb|]. split.
  - intros k name Hname.
    destruct (Forall2_lookup_l _ _ _ _ _ Hrest Hname) as (v & Hv & Hav).
    split; [by exists v|].
    rewrite Hav, Hslots by lia. exact Hv.
  - assert (Hsetb : all_set b ("attrs" :: extra_names (length names))).
    { rewrite Hlen. eapply Forall2_Forall_l.
      - apply (restored_slots b v0 vs' Hattrs Hslots).
      - apply Forall_forall. intros v _ name Hv. by exists v. }
    destruct (reduce_ok σ b _ Halb Hsetb) as (vs2 & Hser2 & Hall2).
    rewrite Hser2. f_equal. rewrite Hlen in Hall2.
    rewrite (Forall2_functional _ _ _ _ Hall2 (restored_slots b v0 vs' Hattrs Hslots)).
    rewrite Hnd. by destruct (dmarray.nd a).
Qed.

Lemma roundtrip_keeps_positions_witness :
  allow_list with_units ["attrs"; "units"] ∧
  all_set with_units ["attrs"; "units"] ∧
  ∃ r b,
    dmarray.Serialize with_units [kv] = (Ok r, [kv]) ∧
    dmarray.Deserialize r [kv] = (Ok b, [kv]) ∧
    allow_list b ["attrs"; "extra_attr_1"] ∧
    dmarray.__dict__ b !! "extra_attr_1" = Some (VStr "km") ∧
    dmarray.Serialize b [kv] = (Ok r, [kv]).
Proof.
  assert (H1 : allow_list with_units ["attrs"; "units"]) by reflexivity.
  assert (H2 : all_set with_units ["attrs"; "units"]).
  { repeat constructor; eexists; reflexivity. }
  destruct (roundtrip_keeps_positions [kv] with_units ["units"] H1 H2)
    as (r & b & Hs & Hd & Hal & Hpos & Hs2).
  destruct (Hpos 0 "units" eq_refl) as [_ Hu].
  split; [exact H1|]. split; [exact H2|].
  exists r, b. split; [exact Hs|]. split; [exact Hd|]. split; [exact Hal|].
  split; [exact Hu | exact Hs2].
Defined.

(** ** What a derived instance has *)

(** X5. A derived instance has [attrs] and nothing else, whatever the source
    had: attributes restored as [extra_attr_k] and an allow-list that had
    grown on the source do not come along, the allow-list is the class's
    again, and setting any name other than [attrs] and [Allowed_Attributes]
    on the derived instance raises. *)
Theorem derive_keeps_only_attrs (σ : store) (a : dmarray.instance) (d : derivation) :
  match derived_buffer d (dmarray.nd a) with
  | Ok b =>
      ∃ a' σ',
        dmarray.derive d a σ = (Ok a', σ') ∧
        dmarray.nd a' = b ∧
        is_Some (dmarray.__dict__ a' !! "attrs") ∧
        (∀ name, name ≠ "attrs" → dmarray.__dict__ a' !! name = None) ∧
        allow_list a' ["attrs"] ∧
        (∀ name v σ'', name ≠ "attrs" → name ≠ "Allowed_Attributes" →
           dmarray.SetAttribute name v a' σ''
           = (Raise dmarray.disallowed, St σ'' a'))
  | Raise e => dmarray.derive d a σ = (Raise e, σ)
  end.
Proof.
  unfold dmarray.derive.
  destruct (derived_buffer d (dmarray.nd a)) as [b|e]; [|done].
  rewrite new_from_template_inst.
  assert (Hshape : ∀ v,
    dmarray.nd (with_attr (dmarray.blank b) "attrs" v) = b ∧
    is_Some (dmarray.__dict__ (with_attr (dmarray.blank b) "attrs" v) !! "attrs") ∧
    (∀ name, name ≠ "attrs" →
       dmarray.__dict__ (with_attr (dmarray.blank b) "attrs" v) !! name = None) ∧
    allow_list (with_attr (dmarray.blank b) "attrs" v) ["attrs"] ∧
    (∀ name w σ'', name ≠ "attrs" → name ≠ "Allowed_Attributes" →
       dmarray.SetAttribute name w (with_attr (dmarray.blank b) "attrs" v) σ''
       = (Raise dmarray.disallowed, St σ'' (with_attr (dmarray.blank b) "attrs" v)))).
  { intros v. split; [done|]. split.
    { unfold with_attr. cbn. rewrite lookup_insert_eq. by eexists. }
    split.
    { intros name Hne. unfold with_attr. cbn.
      rewrite lookup_insert_ne by done. apply lookup_empty. }
    split; [reflexivity|].
    intros name w σ'' Hne Hne'. unfold dmarray.SetAttribute.
    apply setattr_not_listed with (xs := [VStr "attrs"]); [done|reflexivity|].
    simpl. rewrite orb_false_r. by apply String.eqb_neq. }
  destruct (dmarray.lookup_attr a "attrs") as [v|]; eexists _, _;
    (split; [reflexivity|]); apply Hshape.
Qed.

(** X6. Derivations compose: after any number of slices, view casts and
    ufunc outputs taken one from the other, the last instance still holds
    the attrs object of the first and the store is as it was; the chain
    fails only where numpy refuses one of the operations. *)
Theorem derive_chain_keeps_attrs (ds : list derivation) (σ : store)
    (a : dmarray.instance) (v : pyval) :
  dmarray.__dict__ a !! "attrs" = Some v →
  match derived_buffers ds (dmarray.nd a) with
  | Ok b =>
      ∃ a', derive_chain ds a σ = (Ok a', σ) ∧
            dmarray.nd a' = b ∧
            dmarray.__dict__ a' !! "attrs" = Some v
  | Raise e => derive_chain ds a σ = (Raise e, σ)
  end.
Proof.
  revert a. induction ds as [|d ds IH]; intros a Hv.
  - by exists a.
  - cbn [derived_buffers derive_chain]. unfold dmarray.derive.
    destruct (derived_buffer d (dmarray.nd a)) as [b|e]; [|done].
    rewrite new_from_template_inst, lookup_attr_attrs, Hv.
    apply (IH (with_attr (dmarray.blank b) "attrs" v)).
    unfold with_attr. cbn. by rewrite lookup_insert_eq.
Qed.

Lemma derive_chain_keeps_attrs_witness :
  dmarray.__dict__ position !! "attrs" = Some (VRef 0) ∧
  ∃ a', derive_chain [Slice 0 2; Ufunc (Z.add 1); ViewCast] position [kv] = (Ok a', [kv]) ∧
        dmarray.nd a' = {| shape := [2]; dtype := "int64"; values := [2; 3]%Z |} ∧
        dmarray.__dict__ a' !! "attrs" = Some (VRef 0).
Proof.
  assert (H : dmarray.__dict__ position !! "attrs" = Some (VRef 0)) by reflexivity.
  exact (conj H (derive_chain_keeps_attrs [Slice 0 2; Ufunc (Z.add 1); ViewCast]
                   [kv] position (VRef 0) H)).
Defined.

(** ** Instances the module makes can be saved *)

Lemma new_instance_shape v b :
  allow_list (with_attr (dmarray.blank b) "attrs" v) ["attrs"] ∧
  all_set (with_attr (dmarray.blank b) "attrs" v) ["attrs"].
Proof.
  split; [reflexivity|]. constructor; [|constructor].
  exists v. apply lookup_attr_with_attr_eq.
Qed.

(** X7. Every instance made by [dmarray(...)], by a derivation from any
    instance, or by restoring a state with at least one slot has an
    allow-list that is a list of names beginning with ["attrs"], with all
    the listed attributes set: the condition under which saving and
    restoring keeps [attrs]. *)
Theorem made_instances_are_well_formed (σ σ' : store) (a' : dmarray.instance) :
  (∀ x attrs, dmarray.__new__ x attrs σ = (Ok a', σ') →
     allow_list a' ["attrs"] ∧ all_set a' ["attrs"]) ∧
  (∀ d a, dmarray.derive d a σ = (Ok a', σ') →
     allow_list a' ["attrs"] ∧ all_set a' ["attrs"]) ∧
  (∀ args nds v0 vs,
     dmarray.Deserialize
       {| dmarray.r_args := args; dmarray.r_state := (nds, v0 :: vs) |} σ = (Ok a', σ') →
     allow_list a' ("attrs" :: extra_names (length vs)) ∧
     all_set a' ("attrs" :: extra_names (length vs))).
Proof.
  split; [|split].
  - intros x attrs H. destruct (numpy_asarray x) as [b|e] eqn:Hx.
    2: { unfold dmarray.__new__ in H. by rewrite Hx in H. }
    rewrite (new_ok _ _ _ _ Hx) in H.
    destruct (py_ne_None attrs); inversion H; subst; apply new_instance_shape.
  - intros d a H. unfold dmarray.derive in H.
    destruct (derived_buffer d (dmarray.nd a)) as [b|e]; [|done].
    rewrite new_from_template_inst in H.
    destruct (dmarray.lookup_attr a "attrs");
      inversion H; subst; apply new_instance_shape.
  - intros args nds v0 vs H. unfold dmarray.Deserialize in H.
    rewrite reconstruct_blank in H. cbn [dmarray.r_args dmarray.r_state] in H.
    destruct (setstate_blank_full σ
                {| shape := ra_shape args; dtype := ra_dtype args; values := [] |}
                nds v0 vs) as (b & Hrun & _ & Hattrs & Hslots & Hal & _ & _).
    rewrite Hrun in H. inversion H; subst. split; [exact Hal|].
    eapply Forall2_Forall_l.
    + apply (restored_slots a' v0 vs Hattrs Hslots).
    + apply Forall_forall. intros v _ name Hv. by exists v.
Qed.

Lemma made_instances_are_well_formed_witness :
  (dmarray.__new__ (Seq [1; 2; 3]%Z) (VRef 0) [kv] = (Ok position, [kv; ∅]) ∧
   allow_list position ["attrs"] ∧ all_set position ["attrs"]) ∧
  (dmarray.derive ViewCast with_units [kv] = (Ok position, [kv]) ∧
   allow_list position ["attrs"] ∧ all_set position ["attrs"]) ∧
  (∃ b σ',
     dmarray.Deserialize
       {| dmarray.r_args := fst (ndarray___reduce__ one_two_three);
          dmarray.r_state := (snd (ndarray___reduce__ one_two_three),
                              [VRef 0; VStr "km"]) |} [kv] = (Ok b, σ') ∧
     allow_list b ["attrs"; "extra_attr_1"] ∧
     all_set b ["attrs"; "extra_attr_1"]).
Proof.
  assert (H1 : dmarray.__new__ (Seq [1; 2; 3]%Z) (VRef 0) [kv]
               = (Ok position, [kv; ∅])) by reflexivity.
  assert (H2 : dmarray.derive ViewCast with_units [kv] = (Ok position, [kv]))
    by reflexivity.
  destruct (made_instances_are_well_formed [kv] [kv; ∅] position) as [G1 _].
  destruct (made_instances_are_well_formed [kv] [kv] position) as (_ & G2 & _).
  split; [exact (conj H1 (G1 _ _ H1))|]. split; [exact (conj H2 (G2 _ _ H2))|].
  destruct (dmarray.Deserialize
              {| dmarray.r_args := fst (ndarray___reduce__ one_two_three);
                 dmarray.r_state := (snd (ndarray___reduce__ one_two_three),
                                     [VRef 0; VStr "km"]) |} [kv])
    as [[b|e] σ'] eqn:H3; [|vm_compute in H3; discriminate H3].
  exists b, σ'. split; [reflexivity|].
  destruct (made_instances_are_well_formed [kv] σ' b) as (_ & _ & G3).
  exact (G3 _ _ _ _ H3).
Defined.

(** ** The default attrs of a new instance *)

Lemma dict_setitem_lookup_ne (σ : store) l l' key value :
  l ≠ l' → dict_setitem l key value σ !! l' = σ !! l'.
Proof.
  intros Hne. unfold dict_setitem. destruct (σ !! l); [|done].
  by apply list_lookup_insert_ne.
Qed.

(** X8. The empty mapping an instance gets when [attrs] is left out is its
    own: two instances made one after the other without [attrs] hold
    different objects, and an item stored through the attrs of the first
    shows in the first only; the second stays empty and the dicts that were
    in the store before stay as they were. *)
Theorem default_attrs_not_shared (σ : store) (x1 x2 : array_like) (b1 b2 : ndarray) :
  numpy_asarray x1 = Ok b1 →
  numpy_asarray x2 = Ok b2 →
  ∃ a1 σ1 a2 σ2,
    dmarray.__new__ x1 VNone σ = (Ok a1, σ1) ∧
    dmarray.__new__ x2 VNone σ1 = (Ok a2, σ2) ∧
    dmarray.__dict__ a1 !! "attrs" ≠ dmarray.__dict__ a2 !! "attrs" ∧
    ∀ key value,
      attrs_of (attrs_setitem a1 key value σ2) a1 = Some {[ key := value ]} ∧
      attrs_of (attrs_setitem a1 key value σ2) a2 = Some ∅ ∧
      ∀ l, l < length σ → attrs_setitem a1 key value σ2 !! l = σ !! l.
Proof.
  intros H1 H2.
  set (l1 := S (length σ)).
  set (σ1 := (σ ++ [∅]) ++ [∅]).
  set (l2 := S (length σ1)).
  set (σ2 := (σ1 ++ [∅]) ++ [∅]).
  exists (with_attr (dmarray.blank b1) "attrs" (VRef l1)), σ1,
         (with_attr (dmarray.blank b2) "attrs" (VRef l2)), σ2.
  split; [by rewrite (new_ok _ _ _ _ H1)|].
  split; [by rewrite (new_ok _ _ _ _ H2)|].
  assert (Hlen1 : length σ1 = length σ + 2).
  { unfold σ1. rewrite !length_app. simpl. lia. }
  assert (Hl1 : σ2 !! l1 = Some ∅).
  { unfold σ2. rewrite <- app_assoc. rewrite lookup_app_l by (rewrite Hlen1; lia).
    unfold σ1, l1. rewrite lookup_app_r by (rewrite length_app; simpl; lia).
    rewrite length_app. simpl.
    by replace (S (length σ) - (length σ + 1)) with 0 by lia. }
  assert (Hl2 : σ2 !! l2 = Some ∅).
  { unfold σ2, l2. rewrite lookup_app_r by (rewrite length_app; simpl; lia).
    rewrite length_app. simpl.
    by replace (S (length σ1) - (length σ1 + 1)) with 0 by lia. }
  assert (Hne : l1 ≠ l2) by (unfold l1, l2; lia).
  split.
  { unfold with_attr. cbn. rewrite !lookup_insert_eq. intros H. apply Hne.
    congruence. }
  intros key value.
  unfold attrs_of, attrs_setitem, with_attr. cbn [dmarray.__dict__].
  rewrite !lookup_insert_eq. cbn [deref].
  split; [|split].
  - rewrite (dict_setitem_lookup _ _ _ _ _ Hl1). by rewrite insert_empty.
  - by rewrite dict_setitem_lookup_ne.
  - intros l Hl. rewrite dict_setitem_lookup_ne by (unfold l1; lia).
    unfold σ2, σ1. rewrite <- !app_assoc. by rewrite lookup_app_l.
Qed.

Lemma default_attrs_not_shared_witness :
  numpy_asarray (Seq [1; 2; 3]%Z) = Ok one_two_three ∧
  numpy_asarray (Array one_two_three) = Ok one_two_three ∧
  ∃ a1 σ1 a2 σ2,
    dmarray.__new__ (Seq [1; 2; 3]%Z) VNone [kv] = (Ok a1, σ1) ∧
    dmarray.__new__ (Array one_two_three) VNone σ1 = (Ok a2, σ2) ∧
    attrs_of (attrs_setitem a1 "unit" (VStr "km") σ2) a1 = Some unit_km ∧
    attrs_of (attrs_setitem a1 "unit" (VStr "km") σ2) a2 = Some ∅ ∧
    attrs_setitem a1 "unit" (VStr "km") σ2 !! 0 = Some kv.
Proof.
  assert (H1 : numpy_asarray (Seq [1; 2; 3]%Z) = Ok one_two_three) by reflexivity.
  assert (H2 : numpy_asarray (Array one_two_three) = Ok one_two_three) by reflexivity.
  destruct (default_attrs_not_shared [kv] _ _ _ _ H1 H2)
    as (a1 & σ1 & a2 & σ2 & Hn1 & Hn2 & _ & G).
  destruct (G "unit" (VStr "km")) as (G1 & G2 & G3).
  split; [exact H1|]. split; [exact H2|].
  exists a1, σ1, a2, σ2. split; [exact Hn1|]. split; [exact Hn2|].
  split; [exact G1|]. split; [exact G2|].
  rewrite (G3 0); [reflexivity | simpl; lia].
Defined.

(** ** A restore that fails *)

(** X9. [__setstate__] replaces the array before it looks at the slots: on
    an instance whose allow-list is a list without ["attrs"], restoring a
    state with at least one slot raises the error of [__setattr__] with the
    array already the saved one and the attributes as they were. *)
Theorem setstate_failure_keeps_new_array (σ : store) (a : dmarray.instance)
    (nds : nd_state) (v0 : pyval) (vs L : list pyval) :
  dmarray.lookup_attr a "Allowed_Attributes" = Some (VList L) →
  existsb (str_eq "attrs") L = false →
  dmarray.__setstate__ (nds, v0 :: vs) (St σ a)
  = (Raise dmarray.disallowed,
     St σ {| dmarray.nd := ndarray_of_state nds;
             dmarray.__dict__ := dmarray.__dict__ a |}).
Proof.
  intros HL Hin.
  unfold dmarray.__setstate__, dmarray.ndarray___setstate__. py_run.
  cbn [length seq for_each]. py_run.
  unfold dmarray.restore_slot at 1. cbn [lookup list_lookup Nat.eqb].
  rewrite (setattr_not_listed _ _ _ _ L); [done|done| |done].
  unfold dmarray.lookup_attr in *. exact HL.
Qed.

Lemma setstate_failure_keeps_new_array_witness :
  dmarray.lookup_attr (with_attr position "Allowed_Attributes" (VList []))
    "Allowed_Attributes" = Some (VList []) ∧
  existsb (str_eq "attrs") [] = false ∧
  dmarray.__setstate__
    (snd (ndarray___reduce__ {| shape := [1]; dtype := "int64"; values := [7]%Z |}),
     [VRef 0])
    (St [kv] (with_attr position "Allowed_Attributes" (VList [])))
  = (Raise dmarray.disallowed,
     St [kv] {| dmarray.nd := {| shape := [1]; dtype := "int64"; values := [7]%Z |};
                dmarray.__dict__ :=
                  dmarray.__dict__
                    (with_attr position "Allowed_Attributes" (VList [])) |}).
Proof.
  assert (H1 : dmarray.lookup_attr (with_attr position "Allowed_Attributes" (VList []))
                 "Allowed_Attributes" = Some (VList [])) by reflexivity.
  assert (H2 : existsb (str_eq "attrs") [] = false) by reflexivity.
  exact (conj H1 (conj H2
    (setstate_failure_keeps_new_array [kv] _ _ (VRef 0) [] [] H1 H2))).
Defined.

(** ** SpaceData: what every construction leaves *)

(** X10. Every [SpaceData] that is constructed has [attrs], and no other
    instance attribute; unless an [attrs] keyword with [__getitem__] was
    given, it is an empty mapping made by this very construction, one that
    no dict already in the store is. *)
Theorem construct_always_has_attrs (σ σ' : store) (args : list SpaceData.positional)
    (kwargs : pydict) (sd : SpaceData.instance) :
  SpaceData.Construct args kwargs σ = (Ok sd, σ') →
  σ' = σ ++ [∅] ∧
  is_Some (SpaceData.__dict__ sd !! "attrs") ∧
  (∀ name, name ≠ "attrs" → SpaceData.__dict__ sd !! name = None) ∧
  ((∃ given, kwargs !! "attrs" = Some given ∧ has___getitem__ given = true ∧
             SpaceData.__dict__ sd !! "attrs" = Some given) ∨
   (SpaceData.__dict__ sd !! "attrs" = Some (VRef (length σ)) ∧
    σ !! length σ = None ∧
    σ' !! length σ = Some ∅)).
Proof.
  rewrite construct_eq.
  destruct (positional_items (σ ++ [∅]) args) as [p|e]; [|done].
  intros H. inversion H; subst. cbn [SpaceData.__dict__].
  split; [done|]. split; [rewrite lookup_singleton_eq; by eexists|].
  split.
  { intros name Hne. by rewrite lookup_singleton_ne. }
  rewrite lookup_singleton_eq. unfold attrs_after_init.
  assert (Hfresh : σ !! length σ = None ∧ (σ ++ [∅]) !! length σ = Some ∅).
  { split; [by apply lookup_ge_None | apply lookup_snoc]. }
  destruct (kwargs !! "attrs") as [given|]; [|by right].
  destruct (has___getitem__ given) eqn:Hg; [|by right].
  left. by exists given.
Qed.

Lemma construct_always_has_attrs_witness :
  ∃ sd,
    SpaceData.Construct [SpaceData.Pairs [("x", VInt 1)]] {[ "attrs" := VNone ]} [kv]
      = (Ok sd, [kv; ∅]) ∧
    SpaceData.__dict__ sd !! "attrs" = Some (VRef 1) ∧
    SpaceData.__dict__ sd !! "x" = None.
Proof.
  destruct (SpaceData.Construct [SpaceData.Pairs [("x", VInt 1)]]
              {[ "attrs" := VNone ]} [kv]) as [[sd|e] σ'] eqn:H;
    [|vm_compute in H; discriminate H].
  destruct (construct_always_has_attrs [kv] σ' _ _ sd H) as (-> & _ & Hothers & Hattrs).
  exists sd. split; [reflexivity|]. split.
  - destruct Hattrs as [(given & Hk & Hg & _)|[Ha _]]; [|exact Ha].
    exfalso. vm_compute in Hk. inversion Hk; subst. discriminate Hg.
  - apply Hothers. intros Heq. discriminate Heq.
Defined.

(** X11. The content of a constructed [SpaceData], key by key: ["attrs"]
    has what the positional argument has under it, whatever the keywords
    are; any other key has the keyword of that name when there is one, and
    what the positional argument has otherwise. *)
Theorem construct_content_by_key (σ : store) (args : list SpaceData.positional)
    (kwargs p : pydict) :
  positional_items σ args = Ok p →
  ∃ sd,
    SpaceData.Construct args kwargs σ = (Ok sd, σ ++ [∅]) ∧
    SpaceData.items sd !! "attrs" = p !! "attrs" ∧
    ∀ key, key ≠ "attrs" →
      SpaceData.items sd !! key
      = match kwargs !! key with
        | Some v => Some v
        | None => p !! key
        end.
Proof.
  intros Hp. apply positional_items_grow with (σ2 := [∅]) in Hp.
  rewrite construct_eq, Hp. eexists. split; [reflexivity|].
  cbn [SpaceData.items]. split.
  - rewrite lookup_union, lookup_delete_eq. by destruct (p !! "attrs").
  - intros key Hne. rewrite lookup_union, lookup_delete_ne by done.
    destruct (kwargs !! key), (p !! key); done.
Qed.

Lemma construct_content_by_key_witness :
  positional_items [{[ "x" := VInt 1; "attrs" := VInt 5 ]}] [SpaceData.Mapping 0]
    = Ok {[ "x" := VInt 1; "attrs" := VInt 5 ]} ∧
  ∃ sd,
    SpaceData.Construct [SpaceData.Mapping 0]
      {[ "x" := VInt 2; "attrs" := VRef 0 ]}
      [{[ "x" := VInt 1; "attrs" := VInt 5 ]}]
    = (Ok sd, [{[ "x" := VInt 1; "attrs" := VInt 5 ]}] ++ [∅]) ∧
    SpaceData.items sd !! "attrs" = Some (VInt 5) ∧
    SpaceData.items sd !! "x" = Some (VInt 2).
Proof.
  assert (H : positional_items [{[ "x" := VInt 1; "attrs" := VInt 5 ]}]
                [SpaceData.Mapping 0]
              = Ok {[ "x" := VInt 1; "attrs" := VInt 5 ]}) by reflexivity.
  destruct (construct_content_by_key [{[ "x" := VInt 1; "attrs" := VInt 5 ]}]
              [SpaceData.Mapping 0] {[ "x" := VInt 2; "attrs" := VRef 0 ]} _ H)
    as (sd & Hc & Ha & Hk).
  split; [exact H|]. exists sd. split; [exact Hc|]. split.
  - rewrite Ha. reflexivity.
  - rewrite (Hk "x"); [reflexivity|]. intros Heq. discriminate Heq.
Defined.
